(** * Internet Complaints Tracker: request handlers over a document store

    A shallow embedding of [src/main.py] and [src/schemas.py].  The handlers
    are FastAPI routes that talk to a MongoDB database through PyMongo; they
    are embedded as computations in a state-and-exception monad over an
    explicit store.  The clock ([datetime.now]) and the driver's fresh
    [ObjectId]s are inputs of the handlers that use them. *)

From Stdlib Require Import ZArith NArith Ascii String List Bool Lia.
From stdpp Require Import base option list strings gmap.

Local Open Scope string_scope.
Local Open Scope Z_scope.
Local Open Scope list_scope.

(** ** BSON values and documents *)

(** An [ObjectId] is the byte string held by [bson.ObjectId]: twelve bytes
    when the driver generates it. *)
Definition oid := list Byte.byte.

#[warnings="-register-all"] Inductive value : Type :=
| VNull
| VBool (b : bool)
| VStr (s : string)
| VDate (t : Z)
| VOid (o : oid)
| VArr (l : list value)
| VDoc (d : list (string * value)).

(** A Python [dict] / BSON document: keys in insertion order. *)
Definition document := list (string * value).

Fixpoint bytes_eqb (a b : oid) : bool :=
  match a, b with
  | [], [] => true
  | x :: a', y :: b' => Byte.eqb x y && bytes_eqb a' b'
  | _, _ => false
  end.

Fixpoint value_eqb (v w : value) {struct v} : bool :=
  match v, w with
  | VNull, VNull => true
  | VBool a, VBool b => Bool.eqb a b
  | VStr a, VStr b => String.eqb a b
  | VDate a, VDate b => Z.eqb a b
  | VOid a, VOid b => bytes_eqb a b
  | VArr l, VArr m =>
      (fix go (l m : list value) {struct l} : bool :=
         match l, m with
         | [], [] => true
         | x :: l', y :: m' => value_eqb x y && go l' m'
         | _, _ => false
         end) l m
  | VDoc d, VDoc e =>
      (fix go (d e : list (string * value)) {struct d} : bool :=
         match d, e with
         | [], [] => true
         | (k, x) :: d', (k', y) :: e' =>
             String.eqb k k' && value_eqb x y && go d' e'
         | _, _ => false
         end) d e
  | _, _ => false
  end.

(** [d.get(k)] *)
Fixpoint dict_get (k : string) (d : document) : option value :=
  match d with
  | [] => None
  | (k', v) :: d' => if String.eqb k k' then Some v else dict_get k d'
  end.

(** [d[k] = v]: an existing key keeps its position, a new key goes last. *)
Fixpoint dict_set (k : string) (v : value) (d : document) : document :=
  match d with
  | [] => [(k, v)]
  | (k', v') :: d' =>
      if String.eqb k k' then (k', v) :: d' else (k', v') :: dict_set k v d'
  end.

(** ** [bson.ObjectId] on a [str]

    [ObjectId(s)] accepts [s] when [len(s) == 24] and [bytes.fromhex(s)]
    succeeds, and raises [InvalidId] otherwise.  [bytes.fromhex] reads pairs
    of hexadecimal digits and skips ASCII whitespace between pairs. *)

Definition hex_digit (c : ascii) : option N :=
  let n := N_of_ascii c in
  if ((48 <=? n) && (n <=? 57))%N then Some (n - 48)%N
  else if ((97 <=? n) && (n <=? 102))%N then Some (n - 87)%N
  else if ((65 <=? n) && (n <=? 70))%N then Some (n - 55)%N
  else None.

Definition isspace (c : ascii) : bool :=
  let n := N_of_ascii c in
  ((n =? 32) || ((9 <=? n) && (n <=? 13)))%N.

Definition byte_of_nibbles (hi lo : N) : Byte.byte :=
  byte_of_ascii (ascii_of_N (16 * hi + lo)).

Fixpoint fromhex (s : list ascii) : option (list Byte.byte) :=
  match s with
  | [] => Some []
  | c :: rest =>
      if isspace c then fromhex rest
      else
        match hex_digit c, rest with
        | Some hi, c' :: rest' =>
            match hex_digit c' with
            | Some lo =>
                match fromhex rest' with
                | Some bs => Some (byte_of_nibbles hi lo :: bs)
                | None => None
                end
            | None => None
            end
        | _, _ => None
        end
  end.

Definition ObjectId (s : string) : option oid :=
  if (String.length s =? 24)%nat then fromhex (list_ascii_of_string s)
  else None.

Definition hex_char (n : N) : ascii :=
  if (n <? 10)%N then ascii_of_N (48 + n) else ascii_of_N (87 + n).

(** [str(oid)]: lower-case hexadecimal, two digits a byte. *)
Fixpoint hexlify (bs : list Byte.byte) : string :=
  match bs with
  | [] => EmptyString
  | b :: bs' =>
      let n := Byte.to_N b in
      String (hex_char (n / 16)%N) (String (hex_char (n mod 16)%N) (hexlify bs'))
  end.

Definition str_oid (o : oid) : string := hexlify o.


(** ** Exceptions and the handler monad *)

Inductive exn : Type :=
| HTTPException (status_code : Z) (detail : string)
| InvalidId (s : string)
| ValidationError
| ResponseValidationError
| KeyError (k : string)
| TypeError
| DuplicateKeyError
| WriteError
| StoreUnavailable.

Inductive result (A : Type) : Type :=
| Ok (a : A)
| Raise (e : exn).
Arguments Ok {A} a.
Arguments Raise {A} e.

(** ** The document store *)

(** A stored document: the [_id] the driver gave it and its other fields. *)
Record stored : Type := Stored { _id : oid; body : document }.

(** The [dict] PyMongo hands back for a stored document. *)
Definition as_dict (d : stored) : document := ("_id", VOid (_id d)) :: body d.

(** A filter [{k1: v1, ...}] of equality conditions. *)
Definition query := list (string * value).

(** The update operators the handlers use. *)
Inductive update_op : Type :=
| op_set (k : string) (v : value)
| op_push (k : string) (v : value).

(** Write commands sent to the server, in the order they were sent. *)
Inductive command : Type :=
| cmd_insert_one (coll : string) (d : stored)
| cmd_update_one (coll : string) (filter : query) (update : list update_op).

Record database : Type := Database {
  colls : gmap string (list stored);
  oplog : list command
}.

(** [db] is the module-level handle imported from [database]; it is [None]
    when the store was never configured. *)
Record world : Type := World { db : option database }.

Definition M (A : Type) : Type := world -> result A * world.

Definition ret {A} (a : A) : M A := fun w => (Ok a, w).
Definition raise {A} (e : exn) : M A := fun w => (Raise e, w).
Definition bind {A B} (m : M A) (k : A -> M B) : M B :=
  fun w => match m w with
           | (Ok a, w') => k a w'
           | (Raise e, w') => (Raise e, w')
           end.

Notation "'let!' x ':=' m 'in' k" := (bind m (fun x => k))
  (at level 10, x name, m at level 100, k at level 200).

(** Lift a partial function to the monad: [None] raises [e]. *)
Definition lift_option {A} (e : exn) (o : option A) : M A :=
  match o with Some a => ret a | None => raise e end.

(** Run a database command; subscripting a [None] handle is a [TypeError]. *)
Definition with_db {A} (f : database -> result A * database) : M A :=
  fun w => match db w with
           | Some d => let (r, d') := f d in (r, World (Some d'))
           | None => (Raise TypeError, w)
           end.

Definition docs (d : database) (name : string) : list stored :=
  default [] (colls d !! name).

(** Equality condition on one field: the field equals the value, or is an
    array with an element equal to it; [null] also matches a missing field. *)
Definition match_field (v : value) (f : option value) : bool :=
  match f with
  | None => value_eqb v VNull
  | Some (VArr l) => value_eqb v (VArr l) || existsb (value_eqb v) l
  | Some w => value_eqb v w
  end.

Definition matches (q : query) (d : stored) : bool :=
  forallb (fun '(k, v) =>
             if String.eqb k "_id" then value_eqb v (VOid (_id d))
             else match_field v (dict_get k (body d))) q.

Definition apply_op (o : update_op) (d : document) : result document :=
  match o with
  | op_set k v => Ok (dict_set k v d)
  | op_push k v =>
      match dict_get k d with
      | None => Ok (dict_set k (VArr [v]) d)
      | Some (VArr l) => Ok (dict_set k (VArr (l ++ [v])) d)
      | Some _ => Raise WriteError
      end
  end.

Fixpoint apply_update (u : list update_op) (d : document) : result document :=
  match u with
  | [] => Ok d
  | o :: u' =>
      match apply_op o d with
      | Ok d' => apply_update u' d'
      | Raise e => Raise e
      end
  end.

(** Update the first document that matches, in storage order; the result
    carries [matched_count]. *)
Fixpoint update_first (q : query) (u : list update_op) (l : list stored)
  : result (nat * list stored) :=
  match l with
  | [] => Ok (0%nat, [])
  | d :: l' =>
      if matches q d then
        match apply_update u (body d) with
        | Ok b => Ok (1%nat, Stored (_id d) b :: l')
        | Raise e => Raise e
        end
      else
        match update_first q u l' with
        | Ok (n, l'') => Ok (n, d :: l'')
        | Raise e => Raise e
        end
  end.

(** [coll.find_one(q)] *)
Definition find_one (coll : string) (q : query) : M (option stored) :=
  with_db (fun d => (Ok (List.find (matches q) (docs d coll)), d)).

(** [coll.update_one(q, u)], returning [matched_count]. *)
Definition update_one (coll : string) (q : query) (u : list update_op) : M nat :=
  with_db (fun d =>
    let log := oplog d ++ [cmd_update_one coll q u] in
    match update_first q u (docs d coll) with
    | Ok (O, _) => (Ok 0%nat, Database (colls d) log)
    | Ok (n, l) => (Ok n, Database (<[coll := l]> (colls d)) log)
    | Raise e => (Raise e, Database (colls d) log)
    end).

(** [coll.insert_one(doc)] for a [doc] without [_id]: the driver adds the
    [ObjectId] it generated, and the server refuses an [_id] already in the
    collection. *)
Definition insert_one (coll : string) (fresh : oid) (doc : document) : M oid :=
  with_db (fun d =>
    let new := Stored fresh doc in
    let log := oplog d ++ [cmd_insert_one coll new] in
    if existsb (fun x => bytes_eqb (_id x) fresh) (docs d coll)
    then (Raise DuplicateKeyError, Database (colls d) log)
    else (Ok fresh, Database (<[coll := docs d coll ++ [new]]> (colls d)) log)).

(** ** Entity schemas ([schemas.py])

    The constructors take the keyword arguments with their declared types;
    an argument with a default is optional.  A [Literal] field is checked
    against its listed values when it is supplied. *)

Definition opt_str (o : option string) : value :=
  match o with Some s => VStr s | None => VNull end.

(** Pydantic's [model_dump()]: the fields in declaration order. *)
Class BaseModel (A : Type) : Type := model_dump : A -> document.

Module TeamMember.
Record t : Type := Build {
  username : string;
  password : string;
  full_name : option string;
  role : string;
  is_active : bool
}.

Definition role_literal : list string := ["team"].

Definition new (username password : string) (full_name : option string)
    (role : option string) (is_active : option bool) : result t :=
  match role with
  | Some r =>
      if existsb (String.eqb r) role_literal
      then Ok (Build username password full_name r (default true is_active))
      else Raise ValidationError
  | None => Ok (Build username password full_name "team" (default true is_active))
  end.

Definition dump (m : t) : document :=
  [("username", VStr (username m));
   ("password", VStr (password m));
   ("full_name", opt_str (full_name m));
   ("role", VStr (role m));
   ("is_active", VBool (is_active m))].
End TeamMember.

#[export] Instance TeamMember_model : BaseModel TeamMember.t := TeamMember.dump.

Module Complaint.
Record t : Type := Build {
  title : string;
  description : string;
  customer_name : option string;
  customer_contact : option string;
  assigned_to : option string;
  status : string;
  notes : list document
}.

Definition status_literal : list string :=
  ["pending"; "progress"; "complete"; "critical"; "hold"; "cancelled"].

Definition new (title description : string)
    (customer_name customer_contact assigned_to : option string)
    (status : option string) (notes : option (list document)) : result t :=
  match status with
  | Some s =>
      if existsb (String.eqb s) status_literal
      then Ok (Build title description customer_name customer_contact
                     assigned_to s (default [] notes))
      else Raise ValidationError
  | None => Ok (Build title description customer_name customer_contact
                      assigned_to "pending" (default [] notes))
  end.

Definition dump (c : t) : document :=
  [("title", VStr (title c));
   ("description", VStr (description c));
   ("customer_name", opt_str (customer_name c));
   ("customer_contact", opt_str (customer_contact c));
   ("assigned_to", opt_str (assigned_to c));
   ("status", VStr (status c));
   ("notes", VArr (List.map VDoc (notes c)))].
End Complaint.

#[export] Instance Complaint_model : BaseModel Complaint.t := Complaint.dump.

(** ** Persistence gateway ([database.py]) *)

(** Modelled from the spec: [create_document] of [database.py], which is not
    among the sources.  It serializes the record with its defaults applied,
    inserts it into the named collection and returns the generated
    identifier as a string; it fails with [StoreUnavailable] when there is
    no store connection. *)
Definition create_document {A} `{BaseModel A}
    (fresh : oid) (collection_name : string) (data : A) : M string :=
  fun w =>
    match db w with
    | None => (Raise StoreUnavailable, w)
    | Some _ =>
        (let! inserted_id := insert_one collection_name fresh (model_dump data) in
         ret (str_oid inserted_id)) w
    end.

(** Modelled from the spec: [get_documents] of [database.py], which is not
    among the sources.  It returns all records of the named collection that
    match the filter, each with its identifier, in storage order; the empty
    filter returns the whole collection.  Like every operation of the
    gateway it fails with [StoreUnavailable] without a store connection. *)
Definition get_documents (collection_name : string) (filter_dict : query)
  : M (list stored) :=
  fun w =>
    match db w with
    | None => (Raise StoreUnavailable, w)
    | Some d => (Ok (List.filter (matches filter_dict) (docs d collection_name)), w)
    end.

(** ** Request and response models ([main.py]) *)

Module LoginRequest.
Record t : Type := Build { username : string; password : string }.
End LoginRequest.

Module LoginResponse.
Record t : Type := Build { role : string; username : string }.
End LoginResponse.

Module TeamCreate.
Record t : Type := Build {
  username : string;
  password : string;
  full_name : option string
}.
End TeamCreate.

Module ComplaintCreate.
Record t : Type := Build {
  title : string;
  description : string;
  customer_name : option string;
  customer_contact : option string;
  assigned_to : option string
}.
End ComplaintCreate.

Module NoteCreate.
Record t : Type := Build { text : string }.
End NoteCreate.

Module StatusUpdate.
Record t : Type := Build { status : string }.
End StatusUpdate.

(** ** Handlers ([main.py]) *)

Definition collection (name : string) : M string :=
  fun w =>
    match db w with
    | None => (Raise (HTTPException 500 "Database not configured"), w)
    | Some _ => (Ok name, w)
    end.

(** Truth value of what [find_one] returns: [None] and the empty [dict] are
    false. *)
Definition truthy (user : option stored) : bool :=
  match user with
  | Some u => match as_dict u with [] => false | _ :: _ => true end
  | None => false
  end.

(** [user[k]] on the [dict] of a found document. *)
Definition getitem (k : string) (user : option stored) : M value :=
  match user with
  | Some u => lift_option (KeyError k) (dict_get k (as_dict u))
  | None => raise TypeError
  end.

(** [response_model=LoginResponse]: both fields must be strings. *)
Definition login_response (role : string) (username : value) : M LoginResponse.t :=
  match username with
  | VStr u => ret (LoginResponse.Build role u)
  | _ => raise ResponseValidationError
  end.

Definition team_login (payload : LoginRequest.t) : M LoginResponse.t :=
  let! coll := collection "teammember" in
  let! user := find_one coll
                 [("username", VStr (LoginRequest.username payload));
                  ("password", VStr (LoginRequest.password payload));
                  ("is_active", VBool true)] in
  if truthy user then
    let! u := getitem "username" user in
    login_response "team" u
  else raise (HTTPException 401 "Invalid credentials").

Definition create_team_member (fresh : oid) (data : TeamCreate.t) : M document :=
  let! coll := collection "teammember" in
  let! existing := find_one coll [("username", VStr (TeamCreate.username data))] in
  if truthy existing then raise (HTTPException 400 "Username already exists")
  else
    match TeamMember.new (TeamCreate.username data) (TeamCreate.password data)
                         (TeamCreate.full_name data) None None with
    | Raise e => raise e
    | Ok member =>
        let! _id := create_document fresh "teammember" member in
        ret [("id", VStr _id)]
    end.

(** [i["_id"] = str(i["_id"])] on the [dict] of a found document. *)
Definition stringify_id (i : stored) : document :=
  dict_set "_id" (VStr (str_oid (_id i))) (as_dict i).

Definition list_team : M (list document) :=
  let! members := get_documents "teammember" [] in
  ret (List.map stringify_id members).

Definition create_complaint (fresh : oid) (data : ComplaintCreate.t) : M document :=
  match Complaint.new (ComplaintCreate.title data) (ComplaintCreate.description data)
                      (ComplaintCreate.customer_name data)
                      (ComplaintCreate.customer_contact data)
                      (ComplaintCreate.assigned_to data) None None with
  | Raise e => raise e
  | Ok comp =>
      let! _id := create_document fresh "complaint" comp in
      ret [("id", VStr _id)]
  end.

(** Truth value of an [Optional[str]]: [None] and the empty string are
    false. *)
Definition truthy_str (s : option string) : bool :=
  match s with
  | Some EmptyString => false
  | Some _ => true
  | None => false
  end.

Definition list_complaints (assigned_to : option string) : M (list document) :=
  let query := if truthy_str assigned_to
               then [("assigned_to", opt_str assigned_to)] else [] in
  let! items := get_documents "complaint" query in
  ret (List.map stringify_id items).

Definition team_my_complaints (username : string) : M (list document) :=
  let! items := get_documents "complaint" [("assigned_to", VStr username)] in
  ret (List.map stringify_id items).

Definition allowed : gset string :=
  {[ "pending"; "progress"; "complete"; "critical"; "hold"; "cancelled" ]}.

(** [now] is the value of [datetime.now(timezone.utc)] at the call. *)
Definition update_status (now : Z) (complaint_id : string) (data : StatusUpdate.t)
  : M document :=
  if bool_decide (StatusUpdate.status data ∉ allowed)
  then raise (HTTPException 400 "Invalid status")
  else
    let! coll := collection "complaint" in
    let! oid_ := lift_option (InvalidId complaint_id) (ObjectId complaint_id) in
    let! matched_count :=
      update_one coll [("_id", VOid oid_)]
        [op_set "status" (VStr (StatusUpdate.status data));
         op_set "updated_at" (VDate now)] in
    if (matched_count =? 0)%nat
    then raise (HTTPException 404 "Complaint not found")
    else ret [("ok", VBool true)].

(** [now1] and [now2] are the two readings of the clock, in program order. *)
Definition add_note (now1 now2 : Z) (complaint_id : string) (data : NoteCreate.t)
    (username : option string) : M document :=
  let note := VDoc [("username", opt_str username);
                    ("text", VStr (NoteCreate.text data));
                    ("timestamp", VDate now1)] in
  let! coll := collection "complaint" in
  let! oid_ := lift_option (InvalidId complaint_id) (ObjectId complaint_id) in
  let! matched_count :=
    update_one coll [("_id", VOid oid_)]
      [op_push "notes" note; op_set "updated_at" (VDate now2)] in
  if (matched_count =? 0)%nat
  then raise (HTTPException 404 "Complaint not found")
  else ret [("ok", VBool true)].

(** ** Requests and runs *)

Inductive request : Type :=
| req_team_login (payload : LoginRequest.t)
| req_create_team_member (fresh : oid) (data : TeamCreate.t)
| req_list_team
| req_create_complaint (fresh : oid) (data : ComplaintCreate.t)
| req_list_complaints (assigned_to : option string)
| req_team_my_complaints (username : string)
| req_update_status (now : Z) (complaint_id : string) (data : StatusUpdate.t)
| req_add_note (now1 now2 : Z) (complaint_id : string) (data : NoteCreate.t)
    (username : option string).

(** The store after a request has been served, whatever the response. *)
Definition serve (r : request) (w : world) : world :=
  match r with
  | req_team_login payload => snd (team_login payload w)
  | req_create_team_member fresh data => snd (create_team_member fresh data w)
  | req_list_team => snd (list_team w)
  | req_create_complaint fresh data => snd (create_complaint fresh data w)
  | req_list_complaints a => snd (list_complaints a w)
  | req_team_my_complaints u => snd (team_my_complaints u w)
  | req_update_status now cid data => snd (update_status now cid data w)
  | req_add_note now1 now2 cid data u => snd (add_note now1 now2 cid data u w)
  end.

Definition run (rs : list request) (w : world) : world :=
  fold_left (fun w r => serve r w) rs w.

Definition empty_db : database := Database ∅ [].
Definition init : world := World (Some empty_db).

(** The documents of a collection, none without a store. *)
Definition documents (name : string) (w : world) : list stored :=
  match db w with
  | Some d => docs d name
  | None => []
  end.

Definition log (w : world) : list command :=
  match db w with
  | Some d => oplog d
  | None => []
  end.

Definition status_allowed (d : stored) : Prop :=
  exists s, dict_get "status" (body d) = Some (VStr s) /\ s ∈ allowed.

Definition status_invariant (w : world) : Prop :=
  Forall status_allowed (documents "complaint" w).

(** A stored team member carries [username], [password] and [is_active]
    with the types the schema declares. *)
Definition is_team_member (d : stored) : Prop :=
  exists (n p : string) (a : bool),
    dict_get "username" (body d) = Some (VStr n)
    /\ dict_get "password" (body d) = Some (VStr p)
    /\ dict_get "is_active" (body d) = Some (VBool a).

Definition not_found : exn := HTTPException 404 "Complaint not found".

(** Sample data. *)
Definition oid1 : oid :=
  [Byte.x00; Byte.x00; Byte.x00; Byte.x00; Byte.x00; Byte.x00;
   Byte.x00; Byte.x00; Byte.x00; Byte.x00; Byte.x00; Byte.x01].
Definition oid2 : oid :=
  [Byte.x00; Byte.x00; Byte.x00; Byte.x00; Byte.x00; Byte.x00;
   Byte.x00; Byte.x00; Byte.x00; Byte.x00; Byte.x00; Byte.x02].
Definition id1 : string := "000000000000000000000001".
Definition id2 : string := "000000000000000000000002".
Definition no_signal : ComplaintCreate.t :=
  ComplaintCreate.Build "No signal" "..." None None None.
Definition alice : TeamCreate.t := TeamCreate.Build "alice" "pw1" None.
Definition alice2 : TeamCreate.t := TeamCreate.Build "alice" "pw2" None.

(** The [notes] array of a document, empty when the field is missing. *)
Definition notes_of (d : document) : list value :=
  match dict_get "notes" d with
  | Some (VArr l) => l
  | _ => []
  end.

(** The note [add_note] builds. *)
Definition note_of (username : option string) (data : NoteCreate.t) (now1 : Z)
  : value :=
  VDoc [("username", opt_str username);
        ("text", VStr (NoteCreate.text data));
        ("timestamp", VDate now1)].

(** A store with one complaint whose status was set at clock reading 5. *)
Definition sample_db : database :=
  Database
    {[ "complaint" :=
         [Stored oid1
            (dict_set "updated_at" (VDate 5)
               (model_dump (Complaint.Build "No signal" "..." None None None
                              "progress" [])))] ]}
    [].
Definition sample : world := World (Some sample_db).

(** A stored record that lets a login request in: it is active and has the
    request's username and password. *)
Definition accepts (payload : LoginRequest.t) (u : stored) : Prop :=
  dict_get "username" (body u) = Some (VStr (LoginRequest.username payload))
  /\ dict_get "password" (body u) = Some (VStr (LoginRequest.password payload))
  /\ dict_get "is_active" (body u) = Some (VBool true).

Definition invalid_credentials : exn := HTTPException 401 "Invalid credentials".

(** The record [create_team_member] builds from a request. *)
Definition member_of (data : TeamCreate.t) : TeamMember.t :=
  TeamMember.Build (TeamCreate.username data) (TeamCreate.password data)
    (TeamCreate.full_name data) "team" true.

(** A store with one team member, deactivated by hand. *)
Definition inactive_alice : database :=
  Database {[ "teammember" :=
                [Stored oid1 (model_dump (TeamMember.Build "alice" "pw1" None
                                            "team" false))] ]} [].

(** ** Configuration and the routes without a store *)

(** [os.getenv(k, dflt)] over the process environment. *)
Definition getenv (environ : gmap string string) (k dflt : string) : string :=
  default dflt (environ !! k).

Definition ADMIN_USERNAME (environ : gmap string string) : string :=
  getenv environ "ADMIN_USERNAME" "opengreen".
Definition ADMIN_PASSWORD (environ : gmap string string) : string :=
  getenv environ "ADMIN_PASSWORD" "ali12345".

Definition root (environ : gmap string string) : M document :=
  ret [("service", VStr "Complaints Tracker API");
       ("admin_hint", VDoc [("user", VStr (ADMIN_USERNAME environ));
                            ("pass", VStr (ADMIN_PASSWORD environ))])].

Definition admin_login (environ : gmap string string) (payload : LoginRequest.t)
  : M LoginResponse.t :=
  if String.eqb (LoginRequest.username payload) (ADMIN_USERNAME environ)
     && String.eqb (LoginRequest.password payload) (ADMIN_PASSWORD environ)
  then login_response "admin" (VStr (ADMIN_USERNAME environ))
  else raise (HTTPException 401 "Invalid credentials").

(** The credentials a client reads off the answer of [root]. *)
Definition hint_credentials (resp : document) : option LoginRequest.t :=
  match dict_get "admin_hint" resp with
  | Some (VDoc h) =>
      match dict_get "user" h, dict_get "pass" h with
      | Some (VStr u), Some (VStr p) => Some (LoginRequest.Build u p)
      | _, _ => None
      end
  | _ => None
  end.

(** An identifier as the driver generates it: twelve bytes. *)
Definition generated (o : oid) : Prop := length o = 12%nat.

(** A note request: the two clock readings, the body and the username. *)
Definition note_request : Type := (Z * Z * NoteCreate.t * option string)%type.

(** Serving note requests for one complaint, one after the other. *)
Definition add_notes (cid : string) (ns : list note_request) (w : world) : world :=
  fold_left (fun w '(now1, now2, data, username) =>
               snd (add_note now1 now2 cid data username w)) ns w.

(** The notes a list of note requests appends, in order. *)
Definition notes_appended (ns : list note_request) : list value :=
  List.map (fun '(now1, _, data, username) => note_of username data now1) ns.

(** The keys a status change or a note append may rewrite. *)
Definition mutable_key (k : string) : Prop :=
  k = "status" \/ k = "updated_at" \/ k = "notes".

(** What a later store keeps of a complaint of an earlier store. *)
Definition kept_as (d d' : stored) : Prop :=
  _id d' = _id d
  /\ (forall k, ~ mutable_key k -> dict_get k (body d') = dict_get k (body d))
  /\ notes_of (body d) `prefix_of` notes_of (body d').

(** The usernames of the stored team members, in storage order. *)
Definition usernames (l : list stored) : list (option value) :=
  List.map (fun d => dict_get "username" (body d)) l.

(** A team member as [create_team_member] stores it: active, role team. *)
Definition is_created_member (d : stored) : Prop :=
  exists n p : string,
    dict_get "username" (body d) = Some (VStr n)
    /\ dict_get "password" (body d) = Some (VStr p)
    /\ dict_get "role" (body d) = Some (VStr "team")
    /\ dict_get "is_active" (body d) = Some (VBool true).

(** A complaint whose [assigned_to] is a string or null, as the schema
    declares it. *)
Definition assignable (d : stored) : Prop :=
  dict_get "assigned_to" (body d) = Some VNull
  \/ exists u, dict_get "assigned_to" (body d) = Some (VStr u).

Definition assigned_to_b (u : string) (d : stored) : bool :=
  match dict_get "assigned_to" (body d) with
  | Some (VStr a) => String.eqb u a
  | _ => false
  end.

(** A request that reads and never writes. *)
Definition read_only (r : request) : Prop :=
  match r with
  | req_team_login _ | req_list_team | req_list_complaints _
  | req_team_my_complaints _ => True
  | _ => False
  end.

(** A document to which [$push] can append a note: [notes] is an array or
    is missing. *)
Definition notes_array (d : document) : Prop :=
  dict_get "notes" d = None \/ exists l, dict_get "notes" d = Some (VArr l).

(** The record [create_complaint] builds from a request. *)
Definition complaint_of (data : ComplaintCreate.t) : Complaint.t :=
  Complaint.Build (ComplaintCreate.title data) (ComplaintCreate.description data)
    (ComplaintCreate.customer_name data) (ComplaintCreate.customer_contact data)
    (ComplaintCreate.assigned_to data) "pending" [].

(** The two update documents the handlers send. *)
Inductive handler_update : list update_op -> Prop :=
| hu_status (s : string) (now : Z) :
    s ∈ allowed ->
    handler_update [op_set "status" (VStr s); op_set "updated_at" (VDate now)]
| hu_note (note : value) (now2 : Z) :
    handler_update [op_push "notes" note; op_set "updated_at" (VDate now2)].

(** The exception a handler's answer carries, if any. *)
Definition failure {A} (x : result A * world) : option exn :=
  match fst x with
  | Ok _ => None
  | Raise e => Some e
  end.

(** The exception with which a request fails, if it fails. *)
Definition outcome (r : request) (w : world) : option exn :=
  match r with
  | req_team_login payload => failure (team_login payload w)
  | req_create_team_member fresh data => failure (create_team_member fresh data w)
  | req_list_team => failure (list_team w)
  | req_create_complaint fresh data => failure (create_complaint fresh data w)
  | req_list_complaints a => failure (list_complaints a w)
  | req_team_my_complaints u => failure (team_my_complaints u w)
  | req_update_status now cid data => failure (update_status now cid data w)
  | req_add_note now1 now2 cid data u => failure (add_note now1 now2 cid data u w)
  end.

Definition not_configured : exn := HTTPException 500 "Database not configured".

(** Every complaint of the store can take a note. *)
Definition notes_arrays (w : world) : Prop :=
  Forall (fun d => notes_array (body d)) (documents "complaint" w).

(** The failures that come from the request or from the store's state as
    the handlers check it: 400, 401 and 404, an identifier that is not an
    [ObjectId], and a generated identifier that is already taken. *)
Definition request_error (e : exn) : Prop :=
  e = HTTPException 400 "Invalid status"
  \/ e = HTTPException 400 "Username already exists"
  \/ e = invalid_credentials
  \/ e = not_found
  \/ (exists s, e = InvalidId s)
  \/ e = DuplicateKeyError.

(** ** Dates and identifiers as the store takes them *)

(** PyMongo stores a [datetime] as whole milliseconds since the epoch and
    drops what is below the millisecond.  [us] is a reading of the clock in
    microseconds, the resolution of [datetime.now]; the handlers above take
    a reading as it is stored. *)
Definition bson_date (us : Z) : Z := us / 1000.



(** More sample data. *)
Definition oid3 : oid :=
  [Byte.x00; Byte.x00; Byte.x00; Byte.x00; Byte.x00; Byte.x00;
   Byte.x00; Byte.x00; Byte.x00; Byte.x00; Byte.x00; Byte.x03].
Definition bob : TeamCreate.t := TeamCreate.Build "bob" "pw3" None.
Definition for_alice : ComplaintCreate.t :=
  ComplaintCreate.Build "Slow line" "..." None None (Some "alice").
Definition for_bob : ComplaintCreate.t :=
  ComplaintCreate.Build "Router down" "..." None None (Some "bob").

(** A store with a complaint for alice, an unassigned one and one for bob,
    as three creations leave it. *)
Definition assigned_db : database :=
  default empty_db
    (db (run [req_create_complaint oid1 for_alice;
              req_create_complaint oid2 no_signal;
              req_create_complaint oid3 for_bob] init)).

Ltac run_monad :=
  unfold bind, ret, raise, lift_option, collection, find_one, update_one,
    insert_one, with_db, create_document, get_documents; simpl.

(** * Properties *)

(** ** Dictionaries and identifiers *)

Lemma dict_get_set_same k v d : dict_get k (dict_set k v d) = Some v.
Proof.
  induction d as [|[k' v'] d IH]; simpl.
  - now rewrite String.eqb_refl.
  - destruct (String.eqb k k') eqn:E; simpl; rewrite E; auto.
Qed.

Lemma dict_get_set_other k k' v d :
  k <> k' -> dict_get k' (dict_set k v d) = dict_get k' d.
Proof.
  intros Hne. induction d as [|[k0 v0] d IH]; simpl.
  - destruct (String.eqb k' k) eqn:E; auto.
    apply String.eqb_eq in E. congruence.
  - destruct (String.eqb k k0) eqn:E; simpl.
    + apply String.eqb_eq in E. subst k0.
      destruct (String.eqb k' k) eqn:E'; auto.
      apply String.eqb_eq in E'. congruence.
    + now rewrite IH.
Qed.

Lemma bytes_eqb_eq a b : bytes_eqb a b = true <-> a = b.
Proof.
  revert b. induction a as [|x a IH]; intros [|y b]; simpl; split;
    try congruence; auto.
  - intros [Hxy Hab]%andb_prop.
    apply Byte.byte_dec_bl in Hxy. apply IH in Hab. congruence.
  - intros [= -> ->]. apply andb_true_intro. split.
    + now apply Byte.byte_dec_lb.
    + now apply IH.
Qed.

Lemma bytes_eqb_refl a : bytes_eqb a a = true.
Proof. now apply bytes_eqb_eq. Qed.

Lemma bytes_eqb_neq a b : a <> b -> bytes_eqb a b = false.
Proof.
  intros Hne. destruct (bytes_eqb a b) eqn:E; auto.
  apply bytes_eqb_eq in E. contradiction.
Qed.

Lemma matches_id o d : matches [("_id", VOid o)] d = bytes_eqb o (_id d).
Proof. unfold matches. simpl. apply andb_true_r. Qed.

Lemma filter_matches_nil l : List.filter (matches []) l = l.
Proof.
  induction l as [|d l IH]; simpl; [reflexivity | now rewrite IH].
Qed.

Lemma allowed_literal s :
  existsb (String.eqb s) Complaint.status_literal = bool_decide (s ∈ allowed).
Proof.
  unfold Complaint.status_literal, allowed. simpl.
  repeat match goal with
  | |- context [String.eqb s ?c] =>
      destruct (String.eqb_spec s c) as [->|?]; [now vm_compute|]
  end.
  simpl. symmetry. apply bool_decide_eq_false.
  rewrite !elem_of_union, !elem_of_singleton. intuition congruence.
Qed.

(** ** Evaluating the handlers *)

Lemma update_status_invalid now cid data w :
  StatusUpdate.status data ∉ allowed ->
  update_status now cid data w = (Raise (HTTPException 400 "Invalid status"), w).
Proof.
  intros H. unfold update_status.
  rewrite bool_decide_eq_true_2 by assumption. reflexivity.
Qed.

Lemma update_status_no_store now cid data :
  StatusUpdate.status data ∈ allowed ->
  update_status now cid data (World None)
  = (Raise (HTTPException 500 "Database not configured"), World None).
Proof.
  intros H. unfold update_status.
  rewrite bool_decide_eq_false_2 by (intros Hn; contradiction).
  reflexivity.
Qed.

Lemma update_status_invalid_id now cid data d :
  StatusUpdate.status data ∈ allowed ->
  ObjectId cid = None ->
  update_status now cid data (World (Some d))
  = (Raise (InvalidId cid), World (Some d)).
Proof.
  intros H Hid. unfold update_status.
  rewrite bool_decide_eq_false_2 by (intros Hn; contradiction).
  run_monad. rewrite Hid. reflexivity.
Qed.


Lemma add_note_invalid_id now1 now2 cid data username d :
  ObjectId cid = None ->
  add_note now1 now2 cid data username (World (Some d))
  = (Raise (InvalidId cid), World (Some d)).
Proof.
  intros Hid. unfold add_note. run_monad. rewrite Hid. reflexivity.
Qed.

(** ** C2 *)

(** C2: a status-update request whose status is outside the allowed set is
    rejected with the 400 response before any command is sent to the store;
    the world, and with it the stored status of every complaint and the log
    of write commands, is left as it was. *)
Theorem C2_invalid_status_rejected now cid data w :
  StatusUpdate.status data ∉ allowed ->
  update_status now cid data w = (Raise (HTTPException 400 "Invalid status"), w)
  /\ documents "complaint" (snd (update_status now cid data w))
     = documents "complaint" w
  /\ log (snd (update_status now cid data w)) = log w.
Proof.
  intros H. rewrite (update_status_invalid now cid data w H). auto.
Qed.

(** ** C8 *)

(** C8 (as the schemas stand): constructing a record checks a supplied
    [Literal] field against its listed values and performs no other check.
    A [Complaint] with a listed status, or none, is built from the arguments
    and the defaults, and with any other status it is refused; a
    [TeamMember] with role ["team"], or none, is built from the arguments
    and the defaults, and with any other role it is refused. *)
Theorem C8_construction_checks_literals t d cn cc a st notes u p fn role active :
  (((default "pending" st ∈ allowed)
    /\ Complaint.new t d cn cc a st notes
       = Ok (Complaint.Build t d cn cc a (default "pending" st) (default [] notes)))
   \/ ((default "pending" st ∉ allowed)
       /\ Complaint.new t d cn cc a st notes = Raise ValidationError))
  /\ ((default "team" role = "team"
       /\ TeamMember.new u p fn role active
          = Ok (TeamMember.Build u p fn "team" (default true active)))
      \/ (default "team" role <> "team"
          /\ TeamMember.new u p fn role active = Raise ValidationError)).
Proof.
  split.
  - destruct st as [s|]; unfold Complaint.new; simpl default.
    + rewrite allowed_literal. destruct (bool_decide (s ∈ allowed)) eqn:E.
      * left. split; [now apply bool_decide_eq_true in E | reflexivity].
      * right. split; [now apply bool_decide_eq_false in E | reflexivity].
    + left. split; [| reflexivity]. apply (bool_decide_unpack _). now vm_compute.
  - destruct role as [r|]; unfold TeamMember.new, TeamMember.role_literal;
      cbn [default existsb].
    + rewrite orb_false_r. destruct (String.eqb_spec r "team") as [->|Hr].
      * left. split; reflexivity.
      * right. split; [exact Hr | reflexivity].
    + left. split; reflexivity.
Qed.

(** C8, as stated, fails: a status outside the enumeration is refused when
    a [Complaint] is constructed, and so is a role other than ["team"] when
    a [TeamMember] is. *)
Lemma C8_counterexample :
  Complaint.new "No signal" "..." None None None (Some "bogus") None
  = Raise ValidationError
  /\ TeamMember.new "alice" "pw1" None (Some "admin") None
     = Raise ValidationError.
Proof. split; reflexivity. Qed.

(** ** C9 *)

Lemma stringify_id_listed x :
  stringify_id x = ("_id", VStr (str_oid (_id x))) :: body x.
Proof. reflexivity. Qed.

(** C9: at the admin interface an empty-string [assigned_to] filter gives the
    same result as no filter, and with a store that result is the whole
    complaint collection: one item for every stored complaint, whatever its
    [assigned_to], in storage order, made of the identifier as a string
    under [_id] followed by all the fields of the complaint. *)
Theorem C9_empty_filter_lists_all :
  (forall w, list_complaints (Some "") w = list_complaints None w)
  /\ (forall d,
        list_complaints (Some "") (World (Some d))
        = (Ok (List.map (fun x => ("_id", VStr (str_oid (_id x))) :: body x)
                 (docs d "complaint")),
           World (Some d))).
Proof.
  split; [reflexivity |].
  intros d. unfold list_complaints. run_monad.
  rewrite filter_matches_nil. reflexivity.
Qed.

(** ** C10 *)






(** ** The store commands *)

Lemma update_first_none q u l :
  List.find (matches q) l = None -> update_first q u l = Ok (0%nat, l).
Proof.
  induction l as [|d l IH]; simpl; [reflexivity|].
  destruct (matches q d); [discriminate|].
  intros H. now rewrite IH.
Qed.

Lemma update_first_inv q u l n l' :
  update_first q u l = Ok (n, l') ->
  (n = 0%nat /\ l' = l /\ List.find (matches q) l = None)
  \/ (n = 1%nat /\ exists l1 d b l2,
        l = l1 ++ d :: l2
        /\ Forall (fun x => matches q x = false) l1
        /\ matches q d = true
        /\ apply_update u (body d) = Ok b
        /\ l' = l1 ++ Stored (_id d) b :: l2).
Proof.
  revert n l'. induction l as [|d l IH]; simpl; intros n l' H.
  - injection H as <- <-. left. auto.
  - destruct (matches q d) eqn:Hm.
    + destruct (apply_update u (body d)) as [b|e] eqn:Hu; [|discriminate].
      injection H as <- <-. right. split; [reflexivity|].
      exists [], d, b, l. simpl. auto.
    + destruct (update_first q u l) as [[n0 l0]|e] eqn:Hr; [|discriminate].
      injection H as <- <-.
      destruct (IH _ _ eq_refl) as [(-> & -> & Hnone)|(-> & l1 & x & b & l2 & -> & Hl1 & Hx & Hb & ->)].
      * left. auto.
      * right. split; [reflexivity|].
        exists (d :: l1), x, b, l2. simpl. repeat split; auto.
Qed.

Lemma update_first_Forall (P : stored -> Prop) q u l n l' :
  (forall d b, P d -> apply_update u (body d) = Ok b -> P (Stored (_id d) b)) ->
  Forall P l -> update_first q u l = Ok (n, l') -> Forall P l'.
Proof.
  intros HP Hl H.
  destruct (update_first_inv _ _ _ _ _ H)
    as [(_ & -> & _)|(_ & l1 & x & b & l2 & -> & _ & _ & Hb & ->)]; [assumption|].
  apply Forall_app in Hl as [H1 H2]. apply Forall_cons in H2 as [Hx H2].
  apply Forall_app. split; [assumption|].
  apply Forall_cons. split; [eauto | assumption].
Qed.

Lemma find_id_absent o l :
  Forall (fun u => _id u <> o) l ->
  List.find (matches [("_id", VOid o)]) l = None.
Proof.
  induction 1 as [|d l Hd _ IH]; cbn [List.find]; [reflexivity|].
  rewrite matches_id, bytes_eqb_neq by congruence. exact IH.
Qed.

Lemma docs_insert_same name l c g :
  docs (Database (<[name := l]> c) g) name = l.
Proof. unfold docs. simpl. now rewrite lookup_insert_eq. Qed.

Lemma docs_insert_other name name' l c g :
  name <> name' ->
  docs (Database (<[name := l]> c) g) name' = docs (Database c g) name'.
Proof. intros H. unfold docs. simpl. now rewrite lookup_insert_ne. Qed.

(** What [update_one] leaves in the store. *)
Lemma update_one_effect coll q u d :
  exists d', snd (update_one coll q u (World (Some d))) = World (Some d')
    /\ oplog d' = oplog d ++ [cmd_update_one coll q u]
    /\ (forall name, name <> coll -> docs d' name = docs d name)
    /\ docs d' coll = match update_first q u (docs d coll) with
                      | Ok (_, l') => l'
                      | Raise _ => docs d coll
                      end.
Proof.
  unfold update_one, with_db. simpl.
  destruct (update_first q u (docs d coll)) as [[[|n] l']|e] eqn:H; simpl;
    eexists; (split; [reflexivity|]); (split; [reflexivity|]).
  - split; [reflexivity|].
    now destruct (update_first_inv _ _ _ _ _ H) as [(_ & -> & _)|(? & _)].
  - split; [intros; now apply docs_insert_other | apply docs_insert_same].
  - split; reflexivity.
Qed.

(** What [insert_one] leaves in the store. *)
Lemma insert_one_effect coll fresh doc d :
  exists d', snd (insert_one coll fresh doc (World (Some d))) = World (Some d')
    /\ oplog d' = oplog d ++ [cmd_insert_one coll (Stored fresh doc)]
    /\ (forall name, name <> coll -> docs d' name = docs d name)
    /\ (docs d' coll = docs d coll \/ docs d' coll = docs d coll ++ [Stored fresh doc]).
Proof.
  unfold insert_one, with_db. simpl.
  destruct (existsb _ _); simpl; eexists;
    (split; [reflexivity|]); (split; [reflexivity|]).
  - split; [reflexivity | now left].
  - split; [intros; now apply docs_insert_other | right; apply docs_insert_same].
Qed.

Lemma existsb_id_fresh fresh l :
  Forall (fun u => _id u <> fresh) l ->
  existsb (fun x => bytes_eqb (_id x) fresh) l = false.
Proof.
  induction 1 as [|d l Hd _ IH]; simpl; [reflexivity|].
  now rewrite bytes_eqb_neq, IH.
Qed.

(** ** C6 *)

Lemma update_status_absent now cid o data d :
  StatusUpdate.status data ∈ allowed ->
  ObjectId cid = Some o ->
  Forall (fun u => _id u <> o) (docs d "complaint") ->
  update_status now cid data (World (Some d))
  = (Raise not_found,
     World (Some (Database (colls d)
       (oplog d ++ [cmd_update_one "complaint" [("_id", VOid o)]
                      [op_set "status" (VStr (StatusUpdate.status data));
                       op_set "updated_at" (VDate now)]])))).
Proof.
  intros Hin Hid Habs. unfold update_status.
  rewrite bool_decide_eq_false_2 by (intros Hn; contradiction).
  run_monad. rewrite Hid. simpl.
  rewrite update_first_none by now apply find_id_absent.
  reflexivity.
Qed.

Lemma add_note_absent now1 now2 cid o data username d :
  ObjectId cid = Some o ->
  Forall (fun u => _id u <> o) (docs d "complaint") ->
  add_note now1 now2 cid data username (World (Some d))
  = (Raise not_found,
     World (Some (Database (colls d)
       (oplog d ++ [cmd_update_one "complaint" [("_id", VOid o)]
                      [op_push "notes"
                         (VDoc [("username", opt_str username);
                                ("text", VStr (NoteCreate.text data));
                                ("timestamp", VDate now1)]);
                       op_set "updated_at" (VDate now2)]])))).
Proof.
  intros Hid Habs. unfold add_note. run_monad. rewrite Hid. simpl.
  rewrite update_first_none by now apply find_id_absent.
  reflexivity.
Qed.

(** C6 (amended): with a configured store and a well-formed identifier that
    no complaint carries, a note append, and a status update whose status is
    allowed, are answered 404 and change no stored record of any
    collection. *)
Theorem C6_absent_id_not_found now now1 now2 cid o sdata ndata username d :
  ObjectId cid = Some o ->
  Forall (fun u => _id u <> o) (docs d "complaint") ->
  (StatusUpdate.status sdata ∈ allowed ->
   exists w', update_status now cid sdata (World (Some d)) = (Raise not_found, w')
              /\ forall name, documents name w' = docs d name)
  /\ (exists w', add_note now1 now2 cid ndata username (World (Some d))
                 = (Raise not_found, w')
                 /\ forall name, documents name w' = docs d name).
Proof.
  intros Hid Habs. split.
  - intros Hin. eexists. split.
    + now apply (update_status_absent now cid o).
    + reflexivity.
  - eexists. split.
    + now apply (add_note_absent now1 now2 cid o).
    + reflexivity.
Qed.

(** C6, as stated, fails: a status update with a well-formed identifier that
    is absent from the collection, but with a status outside the allowed
    set, is answered 400 and not 404. *)
Lemma C6_counterexample :
  ObjectId id1 = Some oid1
  /\ Forall (fun u => _id u <> oid1) (documents "complaint" init)
  /\ update_status 0 id1 (StatusUpdate.Build "bogus") init
     = (Raise (HTTPException 400 "Invalid status"), init)
  /\ HTTPException 400 "Invalid status" <> not_found.
Proof.
  split; [reflexivity|]. split; [constructor|].
  split; [reflexivity | discriminate].
Qed.

(** ** C5 *)

Lemma apply_note_update note now2 d b :
  apply_update [op_push "notes" note; op_set "updated_at" (VDate now2)] d = Ok b ->
  notes_of b = notes_of d ++ [note]
  /\ dict_get "updated_at" b = Some (VDate now2)
  /\ (forall k, k <> "notes" -> k <> "updated_at" -> dict_get k b = dict_get k d).
Proof.
  unfold apply_update, apply_op, notes_of.
  destruct (dict_get "notes" d) as [[| | | | |l|]|] eqn:Hn; try discriminate;
    intros [= <-]; (split; [|split]).
  - rewrite dict_get_set_other, dict_get_set_same by discriminate. reflexivity.
  - apply dict_get_set_same.
  - intros k H1 H2. rewrite !dict_get_set_other by congruence. reflexivity.
  - rewrite dict_get_set_other, dict_get_set_same by discriminate. reflexivity.
  - apply dict_get_set_same.
  - intros k H1 H2. rewrite !dict_get_set_other by congruence. reflexivity.
Qed.

(** What a successful note append has done. *)
Lemma add_note_effect now1 now2 cid data username w r w' :
  add_note now1 now2 cid data username w = (Ok r, w') ->
  exists o l1 d l2 b,
    ObjectId cid = Some o
    /\ documents "complaint" w = l1 ++ d :: l2
    /\ Forall (fun u => _id u <> o) l1
    /\ _id d = o
    /\ documents "complaint" w' = l1 ++ Stored o b :: l2
    /\ notes_of b = notes_of (body d) ++ [note_of username data now1]
    /\ dict_get "updated_at" b = Some (VDate now2)
    /\ (forall t, dict_get "updated_at" (body d) = Some (VDate t) -> t < now2 ->
        exists t', dict_get "updated_at" b = Some (VDate t') /\ t < t')
    /\ (forall k, k <> "notes" -> k <> "updated_at" ->
        dict_get k b = dict_get k (body d))
    /\ log w' = log w ++ [cmd_update_one "complaint" [("_id", VOid o)]
                            [op_push "notes" (note_of username data now1);
                             op_set "updated_at" (VDate now2)]].
Proof.
  destruct w as [[d0|]]; [|discriminate].
  unfold add_note. fold (note_of username data now1).
  unfold bind at 1. unfold collection. cbn [db].
  unfold bind at 1. unfold lift_option.
  destruct (ObjectId cid) as [o|] eqn:Hid; [|discriminate].
  unfold ret at 1. unfold bind, update_one, with_db. cbn [db].
  destruct (update_first _ _ (docs d0 "complaint")) as [[n l']|e] eqn:Hu.
  - destruct (update_first_inv _ _ _ _ _ Hu)
      as [(-> & _ & _)|(-> & l1 & d & b & l2 & Hl & Hl1 & Hd & Hb & ->)].
    + discriminate.
    + cbn. intros [= <- <-].
      rewrite matches_id in Hd. apply bytes_eqb_eq in Hd.
      destruct (apply_note_update _ _ _ _ Hb) as (Hnotes & Hupd & Hkeep).
      exists o, l1, d, l2, b. rewrite <- Hd.
      split; [reflexivity|]. split; [exact Hl|]. split.
      { eapply Forall_impl; [exact Hl1|]. intros x Hx. cbv beta in Hx.
        rewrite matches_id in Hx. intros Heq.
        rewrite Heq, bytes_eqb_refl in Hx. discriminate. }
      split; [reflexivity|]. split.
      { unfold documents. cbn [db]. apply docs_insert_same. }
      split; [exact Hnotes|]. split; [exact Hupd|]. split.
      { intros t _ Hlt. eauto. }
      split; [exact Hkeep | reflexivity].
  - destruct e; discriminate.
Qed.

Lemma bson_date_later t us : t < bson_date us <-> 1000 * t + 1000 <= us.
Proof.
  unfold bson_date.
  pose proof (Z.div_mod us 1000 ltac:(lia)) as Hd.
  pose proof (Z.mod_pos_bound us 1000 ltac:(lia)) as Hm.
  lia.
Qed.

(** C5 (amended): a successful note append rewrites the first complaint that
    carries the identifier, and only that document: the new note is the last
    element of its [notes]; its [updated_at] is the clock reading taken for
    the write, cut to whole milliseconds as the store keeps dates, so that
    it is greater than the stored value exactly when the reading is a full
    millisecond or more past it; its other fields are kept; and both changes
    are made by the one [update_one] command that the request adds to the
    log. *)
Theorem C5_note_append us1 us2 cid data username w r w' :
  add_note (bson_date us1) (bson_date us2) cid data username w = (Ok r, w') ->
  exists o l1 d l2 b,
    ObjectId cid = Some o
    /\ documents "complaint" w = l1 ++ d :: l2
    /\ Forall (fun u => _id u <> o) l1
    /\ _id d = o
    /\ documents "complaint" w' = l1 ++ Stored o b :: l2
    /\ notes_of b
       = notes_of (body d) ++ [note_of username data (bson_date us1)]
    /\ dict_get "updated_at" b = Some (VDate (bson_date us2))
    /\ (forall t t', dict_get "updated_at" (body d) = Some (VDate t) ->
                     dict_get "updated_at" b = Some (VDate t') ->
                     (t < t' <-> 1000 * t + 1000 <= us2))
    /\ (forall k, k <> "notes" -> k <> "updated_at" ->
        dict_get k b = dict_get k (body d))
    /\ log w' = log w ++ [cmd_update_one "complaint" [("_id", VOid o)]
                            [op_push "notes"
                               (note_of username data (bson_date us1));
                             op_set "updated_at" (VDate (bson_date us2))]].
Proof.
  intros H.
  destruct (add_note_effect _ _ _ _ _ _ _ _ H)
    as (o & l1 & d & l2 & b & H1 & H2 & H3 & H4 & H5 & H6 & H7 & _ & H9 & H10).
  exists o, l1, d, l2, b. repeat (split; [assumption|]).
  split; [|split; assumption].
  intros t t' _ Ht'. rewrite H7 in Ht'. injection Ht' as <-.
  apply bson_date_later.
Qed.

(** C5, as stated, fails: a note appended at the clock reading of the last
    status change succeeds and leaves [updated_at] equal, not greater. *)
Lemma C5_counterexample :
  exists r w' d d',
    add_note 5 5 id1 (NoteCreate.Build "called customer") (Some "alice")
      sample = (Ok r, w')
    /\ documents "complaint" sample = [d]
    /\ documents "complaint" w' = [d']
    /\ dict_get "updated_at" (body d) = Some (VDate 5)
    /\ dict_get "updated_at" (body d') = Some (VDate 5).
Proof.
  do 4 eexists. split; [vm_compute; reflexivity|].
  repeat split; vm_compute; reflexivity.
Qed.

(** A note append that succeeds, with its effect: the clock reads 6.2 ms
    for the note and 7.9 ms for the write, the store keeps 6 and 7. *)
Lemma C5_witness :
  add_note (bson_date 6200) (bson_date 7900) id1 (NoteCreate.Build "hi") None
    sample
  = (Ok [("ok", VBool true)],
     snd (add_note (bson_date 6200) (bson_date 7900) id1 (NoteCreate.Build "hi")
            None sample))
  /\ exists o l1 d l2 b,
    ObjectId id1 = Some o
    /\ documents "complaint" sample = l1 ++ d :: l2
    /\ Forall (fun u => _id u <> o) l1
    /\ _id d = o
    /\ documents "complaint"
         (snd (add_note (bson_date 6200) (bson_date 7900) id1
                 (NoteCreate.Build "hi") None sample))
       = l1 ++ Stored o b :: l2
    /\ notes_of b
       = notes_of (body d)
         ++ [note_of None (NoteCreate.Build "hi") (bson_date 6200)]
    /\ dict_get "updated_at" b = Some (VDate (bson_date 7900))
    /\ (forall t t', dict_get "updated_at" (body d) = Some (VDate t) ->
                     dict_get "updated_at" b = Some (VDate t') ->
                     (t < t' <-> 1000 * t + 1000 <= 7900))
    /\ (forall k, k <> "notes" -> k <> "updated_at" ->
        dict_get k b = dict_get k (body d))
    /\ log (snd (add_note (bson_date 6200) (bson_date 7900) id1
                   (NoteCreate.Build "hi") None sample))
       = log sample
         ++ [cmd_update_one "complaint" [("_id", VOid o)]
               [op_push "notes"
                  (note_of None (NoteCreate.Build "hi") (bson_date 6200));
                op_set "updated_at" (VDate (bson_date 7900))]].
Proof.
  assert (H : add_note (bson_date 6200) (bson_date 7900) id1
                (NoteCreate.Build "hi") None sample
              = (Ok [("ok", VBool true)],
                 snd (add_note (bson_date 6200) (bson_date 7900) id1
                        (NoteCreate.Build "hi") None sample)))
    by (vm_compute; reflexivity).
  split; [exact H|].
  exact (C5_note_append 6200 7900 id1 (NoteCreate.Build "hi") None sample _ _ H).
Defined.

(** ** The world after each handler *)

Lemma team_login_world payload w : snd (team_login payload w) = w.
Proof.
  destruct w as [[d|]]; [|reflexivity].
  unfold team_login. run_monad.
  destruct (List.find _ _) as [u|]; simpl; [|reflexivity].
  destruct (dict_get "username" (body u)) as [[]|]; reflexivity.
Qed.

Lemma get_documents_world name q w : snd (get_documents name q w) = w.
Proof. unfold get_documents. now destruct (db w). Qed.

Lemma listing_world name q (f : list stored -> list document) w :
  snd ((let! items := get_documents name q in ret (f items)) w) = w.
Proof. unfold bind, get_documents, ret. now destruct w as [[d|]]. Qed.

Lemma create_document_world {A} `{BaseModel A} fresh name (data : A) w :
  snd (create_document fresh name data w)
  = match db w with
    | Some d => snd (insert_one name fresh (model_dump data) w)
    | None => w
    end.
Proof.
  unfold create_document. destruct (db w); [|reflexivity].
  unfold bind, ret. now destruct (insert_one _ _ _ w) as [[]].
Qed.

Lemma create_complaint_world fresh data w :
  exists c,
    Complaint.status c = "pending" /\ Complaint.notes c = []
    /\ snd (create_complaint fresh data w)
       = match db w with
         | Some d => snd (insert_one "complaint" fresh (model_dump c) w)
         | None => w
         end.
Proof.
  exists (Complaint.Build (ComplaintCreate.title data)
            (ComplaintCreate.description data)
            (ComplaintCreate.customer_name data)
            (ComplaintCreate.customer_contact data)
            (ComplaintCreate.assigned_to data) "pending" []).
  split; [reflexivity|]. split; [reflexivity|].
  unfold create_complaint. cbn [Complaint.new default].
  rewrite <- (create_document_world fresh "complaint").
  unfold bind, ret. now destruct (create_document _ _ _ w) as [[]].
Qed.

Lemma create_team_member_world fresh data w :
  snd (create_team_member fresh data w) = w
  \/ exists d, w = World (Some d)
       /\ snd (create_team_member fresh data w)
          = snd (insert_one "teammember" fresh
                   (model_dump (TeamMember.Build (TeamCreate.username data)
                      (TeamCreate.password data) (TeamCreate.full_name data)
                      "team" true)) w).
Proof.
  destruct w as [[d|]]; [|now left].
  pose proof (create_document_world fresh "teammember"
                (TeamMember.Build (TeamCreate.username data)
                   (TeamCreate.password data) (TeamCreate.full_name data)
                   "team" true) (World (Some d))) as Hc.
  cbn [db] in Hc. rewrite <- Hc.
  unfold create_team_member, bind, collection, find_one, with_db, raise, ret.
  cbn [db TeamMember.new default].
  destruct (truthy _); [now left|].
  right. exists d. split; [reflexivity|].
  now destruct (create_document _ _ _ _) as [[]].
Qed.

Lemma update_status_world now cid data w :
  snd (update_status now cid data w) = w
  \/ exists d o, w = World (Some d)
       /\ StatusUpdate.status data ∈ allowed
       /\ ObjectId cid = Some o
       /\ snd (update_status now cid data w)
          = snd (update_one "complaint" [("_id", VOid o)]
                   [op_set "status" (VStr (StatusUpdate.status data));
                    op_set "updated_at" (VDate now)] w).
Proof.
  destruct (decide (StatusUpdate.status data ∈ allowed)) as [Hin|Hout].
  2: { left. now rewrite update_status_invalid. }
  destruct w as [[d|]].
  2: { left. now rewrite update_status_no_store. }
  destruct (ObjectId cid) as [o|] eqn:Hid.
  2: { left. now rewrite update_status_invalid_id. }
  right. exists d, o. repeat split; auto.
  unfold update_status.
  rewrite bool_decide_eq_false_2 by (intros Hn; contradiction).
  unfold bind at 1 2, collection, lift_option, ret. cbn [db]. rewrite Hid.
  unfold bind. destruct (update_one _ _ _ _) as [[n|e] w']; [|reflexivity].
  now destruct n.
Qed.

Lemma add_note_world now1 now2 cid data username w :
  snd (add_note now1 now2 cid data username w) = w
  \/ exists d o, w = World (Some d)
       /\ ObjectId cid = Some o
       /\ snd (add_note now1 now2 cid data username w)
          = snd (update_one "complaint" [("_id", VOid o)]
                   [op_push "notes" (note_of username data now1);
                    op_set "updated_at" (VDate now2)] w).
Proof.
  destruct w as [[d|]]; [|now left].
  destruct (ObjectId cid) as [o|] eqn:Hid.
  2: { left. now rewrite add_note_invalid_id. }
  right. exists d, o. repeat split; auto.
  unfold add_note. fold (note_of username data now1).
  unfold bind at 1 2, collection, lift_option, ret. cbn [db]. rewrite Hid.
  unfold bind. destruct (update_one _ _ _ _) as [[n|e] w']; [|reflexivity].
  now destruct n.
Qed.

(** ** C1 *)

Lemma status_update_allowed s now d b :
  s ∈ allowed ->
  apply_update [op_set "status" (VStr s); op_set "updated_at" (VDate now)] (body d)
  = Ok b ->
  status_allowed (Stored (_id d) b).
Proof.
  intros Hs [= <-]. exists s. split; [|assumption]. simpl.
  rewrite dict_get_set_other, dict_get_set_same by discriminate. reflexivity.
Qed.

Lemma note_update_allowed note now2 d b :
  status_allowed d ->
  apply_update [op_push "notes" note; op_set "updated_at" (VDate now2)] (body d)
  = Ok b ->
  status_allowed (Stored (_id d) b).
Proof.
  intros (s & Hs & Hin) Hb.
  apply apply_note_update in Hb as (_ & _ & Hkeep).
  exists s. split; [|assumption]. simpl.
  rewrite Hkeep by discriminate. exact Hs.
Qed.

Lemma update_one_Forall (P : stored -> Prop) q u d :
  (forall x b, P x -> apply_update u (body x) = Ok b -> P (Stored (_id x) b)) ->
  Forall P (docs d "complaint") ->
  Forall P (documents "complaint"
              (snd (update_one "complaint" q u (World (Some d))))).
Proof.
  intros HP Hl.
  destruct (update_one_effect "complaint" q u d) as (d' & -> & _ & _ & Hd').
  unfold documents. cbn [db]. rewrite Hd'.
  destruct (update_first q u (docs d "complaint")) as [[n l']|e] eqn:Hu;
    [|assumption].
  eapply update_first_Forall; eauto.
Qed.

Lemma serve_status_invariant r w :
  status_invariant w -> status_invariant (serve r w).
Proof.
  unfold status_invariant. intros Hw. destruct r; cbn [serve].
  - now rewrite team_login_world.
  - destruct (create_team_member_world fresh data w) as [->|(d & -> & ->)];
      [assumption|].
    destruct (insert_one_effect "teammember" fresh
                (model_dump (TeamMember.Build (TeamCreate.username data)
                   (TeamCreate.password data) (TeamCreate.full_name data)
                   "team" true)) d) as (d' & -> & _ & Hother & _).
    unfold documents in *. cbn [db] in *. now rewrite Hother.
  - unfold list_team. now rewrite listing_world.
  - destruct (create_complaint_world fresh data w) as (c & Hst & _ & ->).
    destruct w as [[d|]]; cbn [db]; [|assumption].
    destruct (insert_one_effect "complaint" fresh (model_dump c) d)
      as (d' & -> & _ & _ & [Hsame|Hnew]);
      unfold documents in *; cbn [db] in *.
    + now rewrite Hsame.
    + rewrite Hnew. apply Forall_app. split; [assumption|].
      apply Forall_cons. split; [|constructor].
      exists "pending". split.
      * simpl. now rewrite Hst.
      * apply (bool_decide_unpack _). now vm_compute.
  - unfold list_complaints. now rewrite listing_world.
  - unfold team_my_complaints. now rewrite listing_world.
  - destruct (update_status_world now complaint_id data w)
      as [->|(d & o & -> & Hin & _ & ->)]; [assumption|].
    apply update_one_Forall; [|assumption].
    intros x b _. now apply status_update_allowed.
  - destruct (add_note_world now1 now2 complaint_id data username w)
      as [->|(d & o & -> & _ & ->)]; [assumption|].
    apply update_one_Forall; [|assumption].
    intros x b. apply note_update_allowed.
Qed.

(** C1: the complaints of a store in which every complaint has a status of
    the fixed enumeration keep that property through every sequence of
    requests, whatever the clock readings and generated identifiers; in
    particular it holds of everything persisted from an empty store. *)
Theorem C1_status_in_enumeration rs w :
  status_invariant w -> status_invariant (run rs w).
Proof.
  revert w. induction rs as [|r rs IH]; intros w Hw; simpl.
  - exact Hw.
  - apply IH. now apply serve_status_invariant.
Qed.

Lemma C1_witness :
  status_invariant init
  /\ status_invariant
       (run [req_create_complaint oid1 no_signal;
             req_update_status 5 id1 (StatusUpdate.Build "progress");
             req_update_status 6 id1 (StatusUpdate.Build "bogus");
             req_add_note 7 7 id1 (NoteCreate.Build "hi") (Some "alice")] init).
Proof.
  assert (H : status_invariant init) by constructor.
  split; [exact H | exact (C1_status_in_enumeration _ init H)].
Defined.

(** ** C7 *)

Lemma matches_login payload u :
  is_team_member u ->
  matches [("username", VStr (LoginRequest.username payload));
           ("password", VStr (LoginRequest.password payload));
           ("is_active", VBool true)] u = true
  <-> accepts payload u.
Proof.
  intros (n & p & a & Hn & Hp & Ha). unfold matches, accepts. simpl.
  rewrite Hn, Hp, Ha. simpl.
  rewrite !andb_true_iff, !String.eqb_eq.
  destruct a; simpl; intuition congruence.
Qed.

Lemma team_login_found payload d u n :
  List.find (matches [("username", VStr (LoginRequest.username payload));
                      ("password", VStr (LoginRequest.password payload));
                      ("is_active", VBool true)]) (docs d "teammember") = Some u ->
  dict_get "username" (body u) = Some (VStr n) ->
  team_login payload (World (Some d))
  = (Ok (LoginResponse.Build "team" n), World (Some d)).
Proof.
  intros Hf Hn. unfold team_login. run_monad. rewrite Hf. simpl.
  rewrite Hn. reflexivity.
Qed.

Lemma team_login_none payload d :
  List.find (matches [("username", VStr (LoginRequest.username payload));
                      ("password", VStr (LoginRequest.password payload));
                      ("is_active", VBool true)]) (docs d "teammember") = None ->
  team_login payload (World (Some d)) = (Raise invalid_credentials, World (Some d)).
Proof.
  intros Hf. unfold team_login. run_monad. rewrite Hf. reflexivity.
Qed.

Lemma find_accepts payload d u :
  Forall is_team_member (docs d "teammember") ->
  List.find (matches [("username", VStr (LoginRequest.username payload));
                      ("password", VStr (LoginRequest.password payload));
                      ("is_active", VBool true)]) (docs d "teammember") = Some u ->
  In u (docs d "teammember") /\ accepts payload u.
Proof.
  intros Hshape Hf. apply find_some in Hf as [Hin Hm]. split; [assumption|].
  rewrite Forall_forall in Hshape.
  apply matches_login; [|assumption].
  apply Hshape. now apply list_elem_of_In.
Qed.

(** C7: in a store whose team members have the schema's fields, a login is
    answered 401 when every stored record with the request's username is
    inactive, also when username and password match; a login that succeeds
    found an active stored record with the request's username and password,
    and every such record makes the login succeed. *)
Theorem C7_login_gate payload d :
  Forall is_team_member (docs d "teammember") ->
  ((forall u, In u (docs d "teammember") ->
              dict_get "username" (body u)
              = Some (VStr (LoginRequest.username payload)) ->
              dict_get "is_active" (body u) = Some (VBool false)) ->
   team_login payload (World (Some d)) = (Raise invalid_credentials, World (Some d)))
  /\ (forall r w', team_login payload (World (Some d)) = (Ok r, w') ->
        w' = World (Some d)
        /\ r = LoginResponse.Build "team" (LoginRequest.username payload)
        /\ exists u, In u (docs d "teammember") /\ accepts payload u)
  /\ ((exists u, In u (docs d "teammember") /\ accepts payload u) ->
      team_login payload (World (Some d))
      = (Ok (LoginResponse.Build "team" (LoginRequest.username payload)),
         World (Some d))).
Proof.
  intros Hshape.
  destruct (List.find (matches [("username", VStr (LoginRequest.username payload));
                      ("password", VStr (LoginRequest.password payload));
                      ("is_active", VBool true)]) (docs d "teammember"))
    as [u|] eqn:Hf.
  - destruct (find_accepts _ _ _ Hshape Hf) as (Hin & Hname & Hpw & Hact).
    pose proof (team_login_found _ _ _ _ Hf Hname) as Hok.
    split; [|split].
    + intros Hinactive. rewrite (Hinactive u Hin Hname) in Hact. discriminate.
    + intros r w'. rewrite Hok. intros [= <- <-].
      split; [reflexivity|]. split; [reflexivity|].
      exists u. split; [assumption|]. split; auto.
    + intros _. exact Hok.
  - pose proof (team_login_none _ _ Hf) as Hno.
    split; [|split].
    + intros _. exact Hno.
    + intros r w'. rewrite Hno. discriminate.
    + intros (u & Hin & Hacc). exfalso.
      pose proof (find_none _ _ Hf u Hin) as Hm. cbv beta in Hm.
      rewrite Forall_forall in Hshape.
      apply (matches_login payload u) in Hacc;
        [congruence | apply Hshape; now apply list_elem_of_In].
Qed.

Lemma C7_witness :
  Forall is_team_member (docs inactive_alice "teammember")
  /\ (forall u, In u (docs inactive_alice "teammember") ->
                dict_get "username" (body u) = Some (VStr "alice") ->
                dict_get "is_active" (body u) = Some (VBool false))
  /\ team_login (LoginRequest.Build "alice" "pw1") (World (Some inactive_alice))
     = (Raise invalid_credentials, World (Some inactive_alice)).
Proof.
  assert (H : Forall is_team_member (docs inactive_alice "teammember")).
  { constructor; [|constructor]. now exists "alice", "pw1", false. }
  assert (Hi : forall u, In u (docs inactive_alice "teammember") ->
                dict_get "username" (body u) = Some (VStr "alice") ->
                dict_get "is_active" (body u) = Some (VBool false)).
  { intros u [<-|[]] _. reflexivity. }
  split; [exact H|]. split; [exact Hi|].
  exact (proj1 (C7_login_gate (LoginRequest.Build "alice" "pw1") inactive_alice H) Hi).
Defined.

(** ** C3 and C4: creation *)

Lemma matches_username u id m :
  matches [("username", VStr u)] (Stored id (model_dump m))
  = String.eqb u (TeamMember.username m).
Proof. unfold matches. simpl. apply andb_true_r. Qed.

Lemma find_last_some {A} (p : A -> bool) l x :
  p x = true -> exists y, List.find p (l ++ [x]) = Some y.
Proof.
  intros Hx. destruct (List.find p (l ++ [x])) as [y|] eqn:Hf; [eauto|].
  pose proof (find_none _ _ Hf x) as Hn.
  rewrite Hn in Hx; [discriminate|]. apply in_or_app. right. now left.
Qed.

Lemma create_team_member_duplicate fresh data d u :
  List.find (matches [("username", VStr (TeamCreate.username data))])
    (docs d "teammember") = Some u ->
  create_team_member fresh data (World (Some d))
  = (Raise (HTTPException 400 "Username already exists"), World (Some d)).
Proof.
  intros Hf. unfold create_team_member, bind, collection, find_one, with_db.
  cbn [db]. rewrite Hf. reflexivity.
Qed.

Lemma create_team_member_new fresh data d :
  List.find (matches [("username", VStr (TeamCreate.username data))])
    (docs d "teammember") = None ->
  create_team_member fresh data (World (Some d))
  = if existsb (fun x => bytes_eqb (_id x) fresh) (docs d "teammember")
    then (Raise DuplicateKeyError,
          World (Some (Database (colls d)
            (oplog d ++ [cmd_insert_one "teammember"
                           (Stored fresh (model_dump (member_of data)))]))))
    else (Ok [("id", VStr (str_oid fresh))],
          World (Some (Database
            (<["teammember" := docs d "teammember"
                               ++ [Stored fresh (model_dump (member_of data))]]>
               (colls d))
            (oplog d ++ [cmd_insert_one "teammember"
                           (Stored fresh (model_dump (member_of data)))])))).
Proof.
  intros Hf. unfold create_team_member, bind, collection, find_one, with_db.
  cbn [db]. rewrite Hf. cbn [truthy TeamMember.new default].
  unfold create_document, bind, insert_one, with_db, ret. cbn [db].
  fold (member_of data).
  now destruct (existsb _ _).
Qed.

Lemma create_complaint_eval fresh data d :
  exists c,
    Complaint.status c = "pending" /\ Complaint.notes c = []
    /\ create_complaint fresh data (World (Some d))
       = if existsb (fun x => bytes_eqb (_id x) fresh) (docs d "complaint")
         then (Raise DuplicateKeyError,
               World (Some (Database (colls d)
                 (oplog d ++ [cmd_insert_one "complaint"
                                (Stored fresh (model_dump c))]))))
         else (Ok [("id", VStr (str_oid fresh))],
               World (Some (Database
                 (<["complaint" := docs d "complaint"
                                   ++ [Stored fresh (model_dump c)]]> (colls d))
                 (oplog d ++ [cmd_insert_one "complaint"
                                (Stored fresh (model_dump c))])))).
Proof.
  exists (Complaint.Build (ComplaintCreate.title data)
            (ComplaintCreate.description data)
            (ComplaintCreate.customer_name data)
            (ComplaintCreate.customer_contact data)
            (ComplaintCreate.assigned_to data) "pending" []).
  split; [reflexivity|]. split; [reflexivity|].
  unfold create_complaint. cbn [Complaint.new default].
  unfold create_document, bind, insert_one, with_db, ret. cbn [db].
  now destruct (existsb _ _).
Qed.

(** C4: with a configured store and a fresh identifier, creating a complaint
    succeeds and appends a record whose status is ["pending"] and whose
    notes are empty; creating a team member whose username is not taken
    succeeds and appends a record whose role is ["team"] and which is
    active. *)
Theorem C4_creation_defaults fresh d cdata tdata :
  Forall (fun u => _id u <> fresh) (docs d "complaint") ->
  Forall (fun u => _id u <> fresh) (docs d "teammember") ->
  List.find (matches [("username", VStr (TeamCreate.username tdata))])
    (docs d "teammember") = None ->
  (exists d' b,
     create_complaint fresh cdata (World (Some d))
     = (Ok [("id", VStr (str_oid fresh))], World (Some d'))
     /\ docs d' "complaint" = docs d "complaint" ++ [Stored fresh b]
     /\ dict_get "status" b = Some (VStr "pending")
     /\ dict_get "notes" b = Some (VArr []))
  /\ (exists d' b,
        create_team_member fresh tdata (World (Some d))
        = (Ok [("id", VStr (str_oid fresh))], World (Some d'))
        /\ docs d' "teammember" = docs d "teammember" ++ [Stored fresh b]
        /\ dict_get "role" b = Some (VStr "team")
        /\ dict_get "is_active" b = Some (VBool true)).
Proof.
  intros Hc Ht Hfree. split.
  - destruct (create_complaint_eval fresh cdata d) as (c & Hst & Hno & ->).
    rewrite existsb_id_fresh by assumption.
    eexists. exists (model_dump c). split; [reflexivity|].
    split; [apply docs_insert_same|].
    split; simpl; [now rewrite Hst | now rewrite Hno].
  - rewrite (create_team_member_new _ _ _ Hfree).
    rewrite existsb_id_fresh by assumption.
    eexists. exists (model_dump (member_of tdata)). split; [reflexivity|].
    split; [apply docs_insert_same|]. split; reflexivity.
Qed.

Lemma C4_witness :
  Forall (fun u => _id u <> oid1) (docs empty_db "complaint")
  /\ Forall (fun u => _id u <> oid1) (docs empty_db "teammember")
  /\ List.find (matches [("username", VStr (TeamCreate.username alice))])
       (docs empty_db "teammember") = None
  /\ (exists d' b,
       create_complaint oid1 no_signal init
       = (Ok [("id", VStr (str_oid oid1))], World (Some d'))
       /\ docs d' "complaint" = docs empty_db "complaint" ++ [Stored oid1 b]
       /\ dict_get "status" b = Some (VStr "pending")
       /\ dict_get "notes" b = Some (VArr []))
  /\ (exists d' b,
       create_team_member oid1 alice init
       = (Ok [("id", VStr (str_oid oid1))], World (Some d'))
       /\ docs d' "teammember" = docs empty_db "teammember" ++ [Stored oid1 b]
       /\ dict_get "role" b = Some (VStr "team")
       /\ dict_get "is_active" b = Some (VBool true)).
Proof.
  assert (Hc : Forall (fun u => _id u <> oid1) (docs empty_db "complaint"))
    by constructor.
  assert (Ht : Forall (fun u => _id u <> oid1) (docs empty_db "teammember"))
    by constructor.
  assert (Hf : List.find (matches [("username", VStr (TeamCreate.username alice))])
                 (docs empty_db "teammember") = None) by reflexivity.
  split; [exact Hc|]. split; [exact Ht|]. split; [exact Hf|].
  exact (C4_creation_defaults oid1 empty_db no_signal alice Hc Ht Hf).
Defined.

(** ** The shape of stored team members *)

Lemma serve_team_members r w :
  Forall is_team_member (documents "teammember" w) ->
  Forall is_team_member (documents "teammember" (serve r w)).
Proof.
  intros Hw. destruct r; cbn [serve].
  - now rewrite team_login_world.
  - destruct (create_team_member_world fresh data w) as [->|(d & -> & ->)];
      [assumption|].
    destruct (insert_one_effect "teammember" fresh
                (model_dump (TeamMember.Build (TeamCreate.username data)
                   (TeamCreate.password data) (TeamCreate.full_name data)
                   "team" true)) d) as (d' & -> & _ & _ & [Hsame|Hnew]);
      unfold documents in *; cbn [db] in *.
    + now rewrite Hsame.
    + rewrite Hnew. apply Forall_app. split; [assumption|].
      apply Forall_cons. split; [|constructor].
      now exists (TeamCreate.username data), (TeamCreate.password data), true.
  - unfold list_team. now rewrite listing_world.
  - destruct (create_complaint_world fresh data w) as (c & _ & _ & ->).
    destruct w as [[d|]]; cbn [db]; [|assumption].
    destruct (insert_one_effect "complaint" fresh (model_dump c) d)
      as (d' & -> & _ & Hother & _).
    unfold documents in *. cbn [db] in *. now rewrite Hother.
  - unfold list_complaints. now rewrite listing_world.
  - unfold team_my_complaints. now rewrite listing_world.
  - destruct (update_status_world now complaint_id data w)
      as [->|(d & o & -> & _ & _ & ->)]; [assumption|].
    destruct (update_one_effect "complaint" [("_id", VOid o)]
                [op_set "status" (VStr (StatusUpdate.status data));
                 op_set "updated_at" (VDate now)] d)
      as (d' & -> & _ & Hother & _).
    unfold documents in *. cbn [db] in *. now rewrite Hother.
  - destruct (add_note_world now1 now2 complaint_id data username w)
      as [->|(d & o & -> & _ & ->)]; [assumption|].
    destruct (update_one_effect "complaint" [("_id", VOid o)]
                [op_push "notes" (note_of username data now1);
                 op_set "updated_at" (VDate now2)] d)
      as (d' & -> & _ & Hother & _).
    unfold documents in *. cbn [db] in *. now rewrite Hother.
Qed.

(** Every team member stored by the handlers has the schema's shape. *)
Lemma run_team_members rs :
  Forall is_team_member (documents "teammember" (run rs init)).
Proof.
  assert (H : forall w, Forall is_team_member (documents "teammember" w) ->
                        Forall is_team_member (documents "teammember" (run rs w))).
  { induction rs as [|r rs IH]; intros w Hw; simpl; [assumption|].
    apply IH. now apply serve_team_members. }
  apply H. constructor.
Qed.

(** ** Sample runs *)

(** The sample store holds what a creation and a status change at clock
    reading 5 leave in an empty store. *)
Example sample_reached :
  documents "complaint"
    (run [req_create_complaint oid1 no_signal;
          req_update_status 5 id1 (StatusUpdate.Build "progress")] init)
  = documents "complaint" sample.
Proof. vm_compute. reflexivity. Qed.

Lemma C2_witness :
  ("bogus" ∉ allowed)
  /\ update_status 6 id1 (StatusUpdate.Build "bogus") sample
     = (Raise (HTTPException 400 "Invalid status"), sample)
  /\ documents "complaint" (snd (update_status 6 id1 (StatusUpdate.Build "bogus") sample))
     = documents "complaint" sample
  /\ log (snd (update_status 6 id1 (StatusUpdate.Build "bogus") sample)) = log sample.
Proof.
  assert (H : "bogus" ∉ allowed) by (apply (bool_decide_unpack _); now vm_compute).
  split; [exact H|].
  exact (C2_invalid_status_rejected 6 id1 (StatusUpdate.Build "bogus") sample H).
Defined.

Lemma C6_witness :
  ObjectId id2 = Some oid2
  /\ Forall (fun u => _id u <> oid2) (docs sample_db "complaint")
  /\ ("hold" ∈ allowed)
  /\ (exists w', update_status 6 id2 (StatusUpdate.Build "hold") sample
                 = (Raise not_found, w')
                 /\ forall name, documents name w' = docs sample_db name)
  /\ (exists w', add_note 6 7 id2 (NoteCreate.Build "hi") None sample
                 = (Raise not_found, w')
                 /\ forall name, documents name w' = docs sample_db name).
Proof.
  assert (Hid : ObjectId id2 = Some oid2) by reflexivity.
  assert (Habs : Forall (fun u => _id u <> oid2) (docs sample_db "complaint")).
  { vm_compute. constructor; [discriminate | constructor]. }
  assert (Hin : "hold" ∈ allowed) by (apply (bool_decide_unpack _); now vm_compute).
  split; [exact Hid|]. split; [exact Habs|]. split; [exact Hin|].
  destruct (C6_absent_id_not_found 6 6 7 id2 oid2 (StatusUpdate.Build "hold")
              (NoteCreate.Build "hi") None sample_db Hid Habs) as [Hs Hn].
  split; [exact (Hs Hin) | exact Hn].
Defined.


(** * Further properties of the handlers *)

(** ** More on dictionaries and identifiers *)



Lemma dict_get_set_present k k' v d :
  dict_get k d <> None -> dict_get k (dict_set k' v d) <> None.
Proof.
  intros H. destruct (String.eqb_spec k' k) as [->|Hne].
  - now rewrite dict_get_set_same.
  - now rewrite dict_get_set_other.
Qed.

Lemma fromhex_pair b rest :
  fromhex (hex_char (Byte.to_N b / 16) :: hex_char (Byte.to_N b mod 16) :: rest)
  = match fromhex rest with
    | Some bs => Some (b :: bs)
    | None => None
    end.
Proof. destruct b; reflexivity. Qed.

Lemma fromhex_hexlify o : fromhex (list_ascii_of_string (hexlify o)) = Some o.
Proof.
  induction o as [|b o IH]; [reflexivity|].
  cbn [hexlify list_ascii_of_string]. now rewrite fromhex_pair, IH.
Qed.

Lemma length_hexlify o : String.length (hexlify o) = (2 * length o)%nat.
Proof.
  induction o as [|b o IH]; [reflexivity|].
  cbn [hexlify String.length length]. rewrite IH. lia.
Qed.

Lemma ObjectId_str_oid o : generated o -> ObjectId (str_oid o) = Some o.
Proof.
  unfold generated, ObjectId, str_oid. intros H.
  rewrite length_hexlify, H. cbn [Nat.mul Nat.add Nat.eqb].
  apply fromhex_hexlify.
Qed.

(** ** Updates that hit *)

Lemma update_first_hit q u l1 x l2 b :
  Forall (fun y => matches q y = false) l1 ->
  matches q x = true ->
  apply_update u (body x) = Ok b ->
  update_first q u (l1 ++ x :: l2) = Ok (1%nat, l1 ++ Stored (_id x) b :: l2).
Proof.
  intros Hl1 Hx Hb. induction Hl1 as [|y l1 Hy _ IH]; simpl.
  - now rewrite Hx, Hb.
  - now rewrite Hy, IH.
Qed.

Lemma not_matching_id o l :
  Forall (fun u => _id u <> o) l ->
  Forall (fun y => matches [("_id", VOid o)] y = false) l.
Proof.
  intros H. eapply Forall_impl; [exact H|].
  intros y Hy. cbv beta. rewrite matches_id.
  apply bytes_eqb_neq. congruence.
Qed.

Lemma update_one_hit q u d l1 x l2 b :
  docs d "complaint" = l1 ++ x :: l2 ->
  Forall (fun y => matches q y = false) l1 ->
  matches q x = true ->
  apply_update u (body x) = Ok b ->
  update_one "complaint" q u (World (Some d))
  = (Ok 1%nat,
     World (Some (Database
       (<["complaint" := l1 ++ Stored (_id x) b :: l2]> (colls d))
       (oplog d ++ [cmd_update_one "complaint" q u])))).
Proof.
  intros Hd Hl1 Hx Hb. unfold update_one, with_db. cbn [db].
  now rewrite Hd, (update_first_hit q u l1 x l2 b).
Qed.

Lemma update_status_hit now cid o data d l1 x l2 :
  StatusUpdate.status data ∈ allowed ->
  ObjectId cid = Some o ->
  docs d "complaint" = l1 ++ x :: l2 ->
  Forall (fun u => _id u <> o) l1 ->
  _id x = o ->
  update_status now cid data (World (Some d))
  = (Ok [("ok", VBool true)],
     World (Some (Database
       (<["complaint" :=
            l1 ++ Stored o (dict_set "updated_at" (VDate now)
                              (dict_set "status" (VStr (StatusUpdate.status data))
                                 (body x))) :: l2]> (colls d))
       (oplog d ++ [cmd_update_one "complaint" [("_id", VOid o)]
                      [op_set "status" (VStr (StatusUpdate.status data));
                       op_set "updated_at" (VDate now)]])))).
Proof.
  intros Hin Hid Hd Hl1 Hx. unfold update_status.
  rewrite bool_decide_eq_false_2 by (intros Hn; contradiction).
  unfold bind at 1 2, collection, lift_option, ret. cbn [db]. rewrite Hid.
  unfold bind.
  rewrite (update_one_hit _ _ d l1 x l2
             (dict_set "updated_at" (VDate now)
                (dict_set "status" (VStr (StatusUpdate.status data)) (body x))));
    auto.
  - now rewrite Hx.
  - now apply not_matching_id.
  - rewrite matches_id, Hx. apply bytes_eqb_refl.
Qed.

(** X1: a status update with an allowed status and the identifier of a
    stored complaint succeeds; it rewrites the first complaint with that
    identifier and nothing else: the status is the requested one,
    [updated_at] is the clock reading, every other field (the notes among
    them) is kept, the other documents and collections are untouched and
    one [update_one] command is logged. *)
Theorem X1_update_status_effect now cid o data d l1 x l2 :
  StatusUpdate.status data ∈ allowed ->
  ObjectId cid = Some o ->
  docs d "complaint" = l1 ++ x :: l2 ->
  Forall (fun u => _id u <> o) l1 ->
  _id x = o ->
  exists d' b,
    update_status now cid data (World (Some d))
    = (Ok [("ok", VBool true)], World (Some d'))
    /\ docs d' "complaint" = l1 ++ Stored o b :: l2
    /\ dict_get "status" b = Some (VStr (StatusUpdate.status data))
    /\ dict_get "updated_at" b = Some (VDate now)
    /\ (forall k, k <> "status" -> k <> "updated_at" ->
        dict_get k b = dict_get k (body x))
    /\ (forall name, name <> "complaint" -> docs d' name = docs d name)
    /\ oplog d' = oplog d ++ [cmd_update_one "complaint" [("_id", VOid o)]
                                [op_set "status" (VStr (StatusUpdate.status data));
                                 op_set "updated_at" (VDate now)]].
Proof.
  intros Hin Hid Hd Hl1 Hx.
  eexists. eexists. split; [now apply (update_status_hit now cid o data d l1 x l2)|].
  split; [apply docs_insert_same|].
  split; [rewrite dict_get_set_other, dict_get_set_same by discriminate; reflexivity|].
  split; [apply dict_get_set_same|].
  split; [intros k H1 H2; rewrite !dict_get_set_other by congruence; reflexivity|].
  split; [intros name Hn; apply docs_insert_other; congruence | reflexivity].
Qed.

Lemma X1_witness :
  ("hold" ∈ allowed)
  /\ ObjectId id1 = Some oid1
  /\ exists d' b,
    update_status 9 id1 (StatusUpdate.Build "hold") sample
    = (Ok [("ok", VBool true)], World (Some d'))
    /\ docs d' "complaint" = [] ++ Stored oid1 b :: []
    /\ dict_get "status" b = Some (VStr "hold")
    /\ dict_get "updated_at" b = Some (VDate 9)
    /\ (forall k, k <> "status" -> k <> "updated_at" ->
        dict_get k b
        = dict_get k (dict_set "updated_at" (VDate 5)
                        (model_dump (Complaint.Build "No signal" "..." None None
                                       None "progress" []))))
    /\ (forall name, name <> "complaint" -> docs d' name = docs sample_db name)
    /\ oplog d' = oplog sample_db ++ [cmd_update_one "complaint" [("_id", VOid oid1)]
                                [op_set "status" (VStr "hold");
                                 op_set "updated_at" (VDate 9)]].
Proof.
  assert (Hin : "hold" ∈ allowed) by (apply (bool_decide_unpack _); now vm_compute).
  split; [exact Hin|]. split; [reflexivity|].
  exact (X1_update_status_effect 9 id1 oid1 (StatusUpdate.Build "hold") sample_db
           [] _ [] Hin eq_refl eq_refl (List.Forall_nil _) eq_refl).
Defined.

(** ** Note appends that hit *)

Lemma apply_note_ok note now2 d :
  notes_array d ->
  apply_update [op_push "notes" note; op_set "updated_at" (VDate now2)] d
  = Ok (dict_set "updated_at" (VDate now2)
          (dict_set "notes" (VArr (notes_of d ++ [note])) d)).
Proof.
  unfold notes_array, notes_of, apply_update, apply_op.
  intros [H|[l H]]; rewrite H; reflexivity.
Qed.

Lemma add_note_hit now1 now2 cid o data username d l1 x l2 :
  ObjectId cid = Some o ->
  docs d "complaint" = l1 ++ x :: l2 ->
  Forall (fun u => _id u <> o) l1 ->
  _id x = o ->
  notes_array (body x) ->
  add_note now1 now2 cid data username (World (Some d))
  = (Ok [("ok", VBool true)],
     World (Some (Database
       (<["complaint" :=
            l1 ++ Stored o (dict_set "updated_at" (VDate now2)
                              (dict_set "notes"
                                 (VArr (notes_of (body x)
                                        ++ [note_of username data now1]))
                                 (body x))) :: l2]> (colls d))
       (oplog d ++ [cmd_update_one "complaint" [("_id", VOid o)]
                      [op_push "notes" (note_of username data now1);
                       op_set "updated_at" (VDate now2)]])))).
Proof.
  intros Hid Hd Hl1 Hx Hn. unfold add_note. fold (note_of username data now1).
  unfold bind at 1 2, collection, lift_option, ret. cbn [db]. rewrite Hid.
  unfold bind.
  rewrite (update_one_hit _ _ d l1 x l2
             (dict_set "updated_at" (VDate now2)
                (dict_set "notes"
                   (VArr (notes_of (body x) ++ [note_of username data now1]))
                   (body x)))); auto.
  - now rewrite Hx.
  - now apply not_matching_id.
  - rewrite matches_id, Hx. apply bytes_eqb_refl.
  - now apply apply_note_ok.
Qed.

Lemma notes_of_appended now2 l d :
  notes_of (dict_set "updated_at" (VDate now2) (dict_set "notes" (VArr l) d)) = l.
Proof.
  unfold notes_of.
  rewrite dict_get_set_other, dict_get_set_same by discriminate. reflexivity.
Qed.

Lemma notes_array_appended now2 l d :
  notes_array (dict_set "updated_at" (VDate now2) (dict_set "notes" (VArr l) d)).
Proof.
  right. exists l.
  rewrite dict_get_set_other, dict_get_set_same by discriminate. reflexivity.
Qed.

(** X2: a note append with the identifier of a stored complaint whose
    [notes] are an array, or missing, succeeds; the note is appended to the
    first complaint with that identifier, whose other fields (the status
    among them) are kept, and the complaint can take further notes. *)
Theorem X2_add_note_succeeds now1 now2 cid o data username d l1 x l2 :
  ObjectId cid = Some o ->
  docs d "complaint" = l1 ++ x :: l2 ->
  Forall (fun u => _id u <> o) l1 ->
  _id x = o ->
  notes_array (body x) ->
  exists d' b,
    add_note now1 now2 cid data username (World (Some d))
    = (Ok [("ok", VBool true)], World (Some d'))
    /\ docs d' "complaint" = l1 ++ Stored o b :: l2
    /\ notes_of b = notes_of (body x) ++ [note_of username data now1]
    /\ notes_array b
    /\ (forall k, k <> "notes" -> k <> "updated_at" ->
        dict_get k b = dict_get k (body x))
    /\ (forall name, name <> "complaint" -> docs d' name = docs d name).
Proof.
  intros Hid Hd Hl1 Hx Hn.
  eexists. eexists.
  split; [now apply (add_note_hit now1 now2 cid o data username d l1 x l2)|].
  split; [apply docs_insert_same|].
  split; [apply notes_of_appended|].
  split; [apply notes_array_appended|].
  split; [intros k H1 H2; rewrite !dict_get_set_other by congruence; reflexivity|].
  intros name Hne. apply docs_insert_other. congruence.
Qed.

Lemma X2_witness :
  ObjectId id1 = Some oid1
  /\ exists d' b,
    add_note 6 7 id1 (NoteCreate.Build "hi") (Some "alice") sample
    = (Ok [("ok", VBool true)], World (Some d'))
    /\ docs d' "complaint" = [] ++ Stored oid1 b :: []
    /\ notes_of b = [] ++ [note_of (Some "alice") (NoteCreate.Build "hi") 6]
    /\ notes_array b
    /\ (forall k, k <> "notes" -> k <> "updated_at" ->
        dict_get k b
        = dict_get k (dict_set "updated_at" (VDate 5)
                        (model_dump (Complaint.Build "No signal" "..." None None
                                       None "progress" []))))
    /\ (forall name, name <> "complaint" -> docs d' name = docs sample_db name).
Proof.
  split; [reflexivity|].
  refine (X2_add_note_succeeds 6 7 id1 oid1 (NoteCreate.Build "hi") (Some "alice")
            sample_db [] _ [] eq_refl eq_refl (List.Forall_nil _) eq_refl _).
  right. now exists [].
Defined.

Lemma add_notes_cons cid now1 now2 data username ns w :
  add_notes cid ((now1, now2, data, username) :: ns) w
  = add_notes cid ns (snd (add_note now1 now2 cid data username w)).
Proof. reflexivity. Qed.

Lemma add_notes_hit cid o l1 l2 ns :
  ObjectId cid = Some o ->
  Forall (fun u => _id u <> o) l1 ->
  forall d x,
    docs d "complaint" = l1 ++ x :: l2 ->
    _id x = o ->
    notes_array (body x) ->
    exists d' b,
      add_notes cid ns (World (Some d)) = World (Some d')
      /\ docs d' "complaint" = l1 ++ Stored o b :: l2
      /\ notes_of b = notes_of (body x) ++ notes_appended ns
      /\ notes_array b
      /\ (forall k, k <> "notes" -> k <> "updated_at" ->
          dict_get k b = dict_get k (body x))
      /\ (forall name, name <> "complaint" -> docs d' name = docs d name).
Proof.
  intros Hid Hl1. induction ns as [|[[[now1 now2] data] username] ns IH];
    intros d x Hd Hx Hn.
  - exists d, (body x). split; [reflexivity|].
    split; [rewrite Hd, <- Hx; now destruct x|].
    split; [simpl; now rewrite app_nil_r|]. auto.
  - rewrite add_notes_cons.
    rewrite (add_note_hit now1 now2 cid o data username d l1 x l2) by assumption.
    cbn [snd].
    set (x' := Stored o (dict_set "updated_at" (VDate now2)
                           (dict_set "notes"
                              (VArr (notes_of (body x)
                                     ++ [note_of username data now1]))
                              (body x)))).
    match goal with
    | |- context [add_notes cid ns (World (Some ?D))] => set (d1 := D)
    end.
    destruct (IH d1 x')
      as (d' & b & Hrun & Hdocs & Hnotes & Harr & Hkeep & Hother);
      [apply docs_insert_same | reflexivity | apply notes_array_appended |].
    subst x' d1.
    exists d', b. split; [exact Hrun|]. split; [exact Hdocs|].
    cbn [body] in Hnotes, Hkeep.
    split.
    { rewrite Hnotes, notes_of_appended. cbn [notes_appended List.map].
      now rewrite <- app_assoc. }
    split; [exact Harr|]. split.
    { intros k H1 H2. rewrite Hkeep by assumption.
      rewrite !dict_get_set_other by congruence. reflexivity. }
    intros name Hne. rewrite Hother by assumption.
    apply docs_insert_other. congruence.
Qed.

(** X3: note appends to one stored complaint compose: after a sequence of
    note requests the complaint's notes are the old notes followed by the
    requested notes in request order; all requests succeed, the complaint's
    other fields are kept and no other document changes. *)
Theorem X3_notes_accumulate_in_order cid o d l1 x l2 ns :
  ObjectId cid = Some o ->
  docs d "complaint" = l1 ++ x :: l2 ->
  Forall (fun u => _id u <> o) l1 ->
  _id x = o ->
  notes_array (body x) ->
  exists d' b,
    add_notes cid ns (World (Some d)) = World (Some d')
    /\ docs d' "complaint" = l1 ++ Stored o b :: l2
    /\ notes_of b = notes_of (body x) ++ notes_appended ns
    /\ (forall k, k <> "notes" -> k <> "updated_at" ->
        dict_get k b = dict_get k (body x))
    /\ (forall name, name <> "complaint" -> docs d' name = docs d name).
Proof.
  intros Hid Hd Hl1 Hx Hn.
  destruct (add_notes_hit cid o l1 l2 ns Hid Hl1 d x Hd Hx Hn)
    as (d' & b & H1 & H2 & H3 & _ & H4 & H5).
  exists d', b. auto.
Qed.

Lemma X3_witness :
  ObjectId id1 = Some oid1
  /\ exists d' b,
    add_notes id1 [(6, 6, NoteCreate.Build "called", Some "alice");
                   (8, 8, NoteCreate.Build "fixed", None)] sample
    = World (Some d')
    /\ docs d' "complaint" = [] ++ Stored oid1 b :: []
    /\ notes_of b
       = [] ++ [note_of (Some "alice") (NoteCreate.Build "called") 6;
                note_of None (NoteCreate.Build "fixed") 8]
    /\ (forall k, k <> "notes" -> k <> "updated_at" ->
        dict_get k b
        = dict_get k (dict_set "updated_at" (VDate 5)
                        (model_dump (Complaint.Build "No signal" "..." None None
                                       None "progress" []))))
    /\ (forall name, name <> "complaint" -> docs d' name = docs sample_db name).
Proof.
  split; [reflexivity|].
  refine (X3_notes_accumulate_in_order id1 oid1 sample_db [] _ []
            [(6, 6, NoteCreate.Build "called", Some "alice");
             (8, 8, NoteCreate.Build "fixed", None)]
            eq_refl eq_refl (List.Forall_nil _) eq_refl _).
  right. now exists [].
Defined.

(** ** Successive status changes *)




(** ** What one request does to each collection *)

Lemma serve_teammember_docs r w :
  documents "teammember" (serve r w) = documents "teammember" w
  \/ exists fresh data,
       r = req_create_team_member fresh data
       /\ List.find (matches [("username", VStr (TeamCreate.username data))])
            (documents "teammember" w) = None
       /\ documents "teammember" (serve r w)
          = documents "teammember" w
            ++ [Stored fresh (model_dump (member_of data))].
Proof.
  destruct r; cbn [serve].
  - left. now rewrite team_login_world.
  - destruct w as [[d|]]; [|now left].
    destruct (List.find (matches [("username", VStr (TeamCreate.username data))])
                (docs d "teammember")) as [u|] eqn:Hf.
    + left. now rewrite (create_team_member_duplicate _ _ _ _ Hf).
    + rewrite (create_team_member_new _ _ _ Hf).
      destruct (existsb _ _); [now left|].
      right. exists fresh, data. split; [reflexivity|]. split; [exact Hf|].
      unfold documents. cbn [snd db]. apply docs_insert_same.
  - left. unfold list_team. now rewrite listing_world.
  - left. destruct (create_complaint_world fresh data w) as (c & _ & _ & ->).
    destruct w as [[d|]]; cbn [db]; [|reflexivity].
    destruct (insert_one_effect "complaint" fresh (model_dump c) d)
      as (d' & -> & _ & Hother & _).
    unfold documents. cbn [db]. now apply Hother.
  - left. unfold list_complaints. now rewrite listing_world.
  - left. unfold team_my_complaints. now rewrite listing_world.
  - left. destruct (update_status_world now complaint_id data w)
      as [->|(d & o & -> & _ & _ & ->)]; [reflexivity|].
    destruct (update_one_effect "complaint" [("_id", VOid o)]
                [op_set "status" (VStr (StatusUpdate.status data));
                 op_set "updated_at" (VDate now)] d)
      as (d' & -> & _ & Hother & _).
    unfold documents. cbn [db]. now apply Hother.
  - left. destruct (add_note_world now1 now2 complaint_id data username w)
      as [->|(d & o & -> & _ & ->)]; [reflexivity|].
    destruct (update_one_effect "complaint" [("_id", VOid o)]
                [op_push "notes" (note_of username data now1);
                 op_set "updated_at" (VDate now2)] d)
      as (d' & -> & _ & Hother & _).
    unfold documents. cbn [db]. now apply Hother.
Qed.

Lemma update_one_complaints q u d :
  let l' := documents "complaint"
              (snd (update_one "complaint" q u (World (Some d)))) in
  l' = docs d "complaint"
  \/ exists l1 x l2 b,
       docs d "complaint" = l1 ++ x :: l2
       /\ apply_update u (body x) = Ok b
       /\ l' = l1 ++ Stored (_id x) b :: l2.
Proof.
  cbv zeta.
  destruct (update_one_effect "complaint" q u d) as (d' & -> & _ & _ & Hd').
  unfold documents. cbn [db]. rewrite Hd'.
  destruct (update_first q u (docs d "complaint")) as [[n l']|e] eqn:Hu;
    [|now left].
  destruct (update_first_inv _ _ _ _ _ Hu)
    as [(_ & -> & _)|(_ & l1 & x & b & l2 & Hl & _ & _ & Hb & ->)]; [now left|].
  right. exists l1, x, l2, b. auto.
Qed.

Lemma serve_complaint_docs r w :
  documents "complaint" (serve r w) = documents "complaint" w
  \/ (exists fresh c,
        Complaint.notes c = []
        /\ documents "complaint" (serve r w)
           = documents "complaint" w ++ [Stored fresh (model_dump c)])
  \/ exists l1 x l2 b u,
       handler_update u
       /\ documents "complaint" w = l1 ++ x :: l2
       /\ apply_update u (body x) = Ok b
       /\ documents "complaint" (serve r w) = l1 ++ Stored (_id x) b :: l2.
Proof.
  destruct r; cbn [serve].
  - left. now rewrite team_login_world.
  - left. destruct (create_team_member_world fresh data w) as [->|(d & -> & ->)];
      [reflexivity|].
    destruct (insert_one_effect "teammember" fresh
                (model_dump (TeamMember.Build (TeamCreate.username data)
                   (TeamCreate.password data) (TeamCreate.full_name data)
                   "team" true)) d) as (d' & -> & _ & Hother & _).
    unfold documents. cbn [db]. now apply Hother.
  - left. unfold list_team. now rewrite listing_world.
  - destruct (create_complaint_world fresh data w) as (c & _ & Hno & ->).
    destruct w as [[d|]]; cbn [db]; [|now left].
    destruct (insert_one_effect "complaint" fresh (model_dump c) d)
      as (d' & -> & _ & _ & [Hsame|Hnew]); unfold documents; cbn [db].
    + now left.
    + right. left. exists fresh, c. auto.
  - left. unfold list_complaints. now rewrite listing_world.
  - left. unfold team_my_complaints. now rewrite listing_world.
  - destruct (update_status_world now complaint_id data w)
      as [->|(d & o & -> & Hin & _ & ->)]; [now left|].
    destruct (update_one_complaints [("_id", VOid o)]
                [op_set "status" (VStr (StatusUpdate.status data));
                 op_set "updated_at" (VDate now)] d)
      as [->|(l1 & x & l2 & b & Hl & Hb & ->)]; [now left|].
    right. right. exists l1, x, l2, b. eexists.
    split; [apply hu_status; exact Hin|].
    split; [exact Hl|]. split; [exact Hb | reflexivity].
  - destruct (add_note_world now1 now2 complaint_id data username w)
      as [->|(d & o & -> & _ & ->)]; [now left|].
    destruct (update_one_complaints [("_id", VOid o)]
                [op_push "notes" (note_of username data now1);
                 op_set "updated_at" (VDate now2)] d)
      as [->|(l1 & x & l2 & b & Hl & Hb & ->)]; [now left|].
    right. right. exists l1, x, l2, b. eexists.
    split; [apply hu_note|].
    split; [exact Hl|]. split; [exact Hb | reflexivity].
Qed.

Lemma serve_other_docs r w name :
  name <> "teammember" -> name <> "complaint" ->
  documents name (serve r w) = documents name w.
Proof.
  intros Ht Hc. destruct r; cbn [serve].
  - now rewrite team_login_world.
  - destruct (create_team_member_world fresh data w) as [->|(d & -> & ->)];
      [reflexivity|].
    destruct (insert_one_effect "teammember" fresh
                (model_dump (TeamMember.Build (TeamCreate.username data)
                   (TeamCreate.password data) (TeamCreate.full_name data)
                   "team" true)) d) as (d' & -> & _ & Hother & _).
    unfold documents. cbn [db]. now apply Hother.
  - unfold list_team. now rewrite listing_world.
  - destruct (create_complaint_world fresh data w) as (c & _ & _ & ->).
    destruct w as [[d|]]; cbn [db]; [|reflexivity].
    destruct (insert_one_effect "complaint" fresh (model_dump c) d)
      as (d' & -> & _ & Hother & _).
    unfold documents. cbn [db]. now apply Hother.
  - unfold list_complaints. now rewrite listing_world.
  - unfold team_my_complaints. now rewrite listing_world.
  - destruct (update_status_world now complaint_id data w)
      as [->|(d & o & -> & _ & _ & ->)]; [reflexivity|].
    destruct (update_one_effect "complaint" [("_id", VOid o)]
                [op_set "status" (VStr (StatusUpdate.status data));
                 op_set "updated_at" (VDate now)] d)
      as (d' & -> & _ & Hother & _).
    unfold documents. cbn [db]. now apply Hother.
  - destruct (add_note_world now1 now2 complaint_id data username w)
      as [->|(d & o & -> & _ & ->)]; [reflexivity|].
    destruct (update_one_effect "complaint" [("_id", VOid o)]
                [op_push "notes" (note_of username data now1);
                 op_set "updated_at" (VDate now2)] d)
      as (d' & -> & _ & Hother & _).
    unfold documents. cbn [db]. now apply Hother.
Qed.

Lemma serve_store r w : db w = None <-> db (serve r w) = None.
Proof.
  destruct r; cbn [serve].
  - now rewrite team_login_world.
  - destruct (create_team_member_world fresh data w) as [->|(d & -> & ->)];
      [reflexivity|].
    destruct (insert_one_effect "teammember" fresh
                (model_dump (TeamMember.Build (TeamCreate.username data)
                   (TeamCreate.password data) (TeamCreate.full_name data)
                   "team" true)) d) as (d' & -> & _). simpl. split; discriminate.
  - unfold list_team. now rewrite listing_world.
  - destruct (create_complaint_world fresh data w) as (c & _ & _ & ->).
    destruct w as [[d|]]; cbn [db]; [|reflexivity].
    destruct (insert_one_effect "complaint" fresh (model_dump c) d)
      as (d' & -> & _). simpl. split; discriminate.
  - unfold list_complaints. now rewrite listing_world.
  - unfold team_my_complaints. now rewrite listing_world.
  - destruct (update_status_world now complaint_id data w)
      as [->|(d & o & -> & _ & _ & ->)]; [reflexivity|].
    destruct (update_one_effect "complaint" [("_id", VOid o)]
                [op_set "status" (VStr (StatusUpdate.status data));
                 op_set "updated_at" (VDate now)] d)
      as (d' & -> & _). simpl. split; discriminate.
  - destruct (add_note_world now1 now2 complaint_id data username w)
      as [->|(d & o & -> & _ & ->)]; [reflexivity|].
    destruct (update_one_effect "complaint" [("_id", VOid o)]
                [op_push "notes" (note_of username data now1);
                 op_set "updated_at" (VDate now2)] d)
      as (d' & -> & _). simpl. split; discriminate.
Qed.

(** ** Documents are only added *)

Lemma map_id_updated l1 x b l2 :
  List.map _id (l1 ++ Stored (_id x) b :: l2) = List.map _id (l1 ++ x :: l2).
Proof. now rewrite !List.map_app. Qed.

Lemma serve_ids r w name :
  List.map _id (documents name w)
  `prefix_of` List.map _id (documents name (serve r w)).
Proof.
  destruct (decide (name = "teammember")) as [->|Ht].
  { destruct (serve_teammember_docs r w) as [->|(fresh & data & _ & _ & ->)].
    - reflexivity.
    - rewrite List.map_app. now apply prefix_app_r. }
  destruct (decide (name = "complaint")) as [->|Hc].
  { destruct (serve_complaint_docs r w)
      as [->|[(fresh & c & _ & ->)|(l1 & x & l2 & b & u & _ & -> & _ & ->)]].
    - reflexivity.
    - rewrite List.map_app. now apply prefix_app_r.
    - now rewrite map_id_updated. }
  now rewrite serve_other_docs.
Qed.

Lemma serve_team_records r w :
  documents "teammember" w `prefix_of` documents "teammember" (serve r w).
Proof.
  destruct (serve_teammember_docs r w) as [->|(fresh & data & _ & _ & ->)].
  - reflexivity.
  - now apply prefix_app_r.
Qed.

(** X5: no request deletes or reorders documents or changes an identifier:
    through any sequence of requests the identifiers of every collection, in
    storage order, stay a prefix of the later ones; and stored team-member
    records are never modified at all. *)
Theorem X5_documents_only_added rs w name :
  List.map _id (documents name w)
  `prefix_of` List.map _id (documents name (run rs w))
  /\ documents "teammember" w `prefix_of` documents "teammember" (run rs w).
Proof.
  revert w. induction rs as [|r rs IH]; intros w; cbn [run fold_left].
  - split; reflexivity.
  - destruct (IH (serve r w)) as [H1 H2]. split.
    + etransitivity; [apply serve_ids | exact H1].
    + etransitivity; [apply serve_team_records | exact H2].
Qed.

(** ** Complaints are append-only *)

Lemma kept_as_refl d : kept_as d d.
Proof. repeat split; reflexivity. Qed.

Lemma kept_as_trans d1 d2 d3 : kept_as d1 d2 -> kept_as d2 d3 -> kept_as d1 d3.
Proof.
  intros (Hi & Hk & Hn) (Hi' & Hk' & Hn'). split; [congruence|]. split.
  - intros k Hm. rewrite Hk', Hk by assumption. reflexivity.
  - etransitivity; eassumption.
Qed.

Lemma Forall2_kept_refl l : Forall2 kept_as l l.
Proof. induction l; constructor; auto using kept_as_refl. Qed.

Lemma handler_update_kept u x b :
  handler_update u -> apply_update u (body x) = Ok b ->
  kept_as x (Stored (_id x) b).
Proof.
  intros [s now Hs|note now2] Hb.
  - injection Hb as <-. split; [reflexivity|]. split.
    + intros k Hm. cbn [body].
      rewrite !dict_get_set_other; [reflexivity| |];
        intros <-; apply Hm; unfold mutable_key; auto.
    + cbn [body]. unfold notes_of.
      rewrite !dict_get_set_other by discriminate. reflexivity.
  - apply apply_note_update in Hb as (Hn & _ & Hk).
    split; [reflexivity|]. split.
    + intros k Hm. cbn [body]. apply Hk; intros ->; apply Hm;
        unfold mutable_key; auto.
    + cbn [body]. rewrite Hn. now apply prefix_app_r.
Qed.

Lemma serve_kept r w :
  exists kept added,
    documents "complaint" (serve r w) = kept ++ added
    /\ Forall2 kept_as (documents "complaint" w) kept.
Proof.
  destruct (serve_complaint_docs r w)
    as [->|[(fresh & c & _ & ->)|(l1 & x & l2 & b & u & Hu & -> & Hb & ->)]].
  - eexists. exists []. rewrite app_nil_r. split; [reflexivity|].
    apply Forall2_kept_refl.
  - eexists. eexists. split; [reflexivity|]. apply Forall2_kept_refl.
  - eexists. exists []. rewrite app_nil_r. split; [reflexivity|].
    apply Forall2_app; [apply Forall2_kept_refl|].
    constructor; [now apply (handler_update_kept u) | apply Forall2_kept_refl].
Qed.

(** X6: complaints are append-only records: through any sequence of
    requests every stored complaint stays at its position with its
    identifier, every field other than [status], [updated_at] and [notes]
    (title, description, customer, assignment) keeps its value, and its
    notes only grow at the end. *)
Theorem X6_complaints_append_only rs w :
  exists kept added,
    documents "complaint" (run rs w) = kept ++ added
    /\ Forall2 kept_as (documents "complaint" w) kept.
Proof.
  revert w. induction rs as [|r rs IH]; intros w; cbn [run fold_left].
  - eexists. exists []. rewrite app_nil_r. split; [reflexivity|].
    apply Forall2_kept_refl.
  - destruct (serve_kept r w) as (k1 & a1 & H1 & F1).
    destruct (IH (serve r w)) as (k2 & a2 & H2 & F2).
    fold (run rs (serve r w)). rewrite H2. rewrite H1 in F2.
    apply Forall2_app_inv_l in F2 as (k2a & k2b & Fa & Fb & ->).
    exists k2a, (k2b ++ a2). split; [now rewrite app_assoc|].
    clear - F1 Fa. revert k2a Fa.
    induction F1 as [|x y l l' Hxy _ IHF]; intros k Fa.
    + inversion Fa. constructor.
    + inversion Fa as [|? z ? l'' Hyz Hrest]; subst. constructor.
      * eapply kept_as_trans; eassumption.
      * now apply IHF.
Qed.

(** ** Usernames stay unique *)

Lemma matches_username_field u d :
  dict_get "username" (body d) = Some (VStr u) ->
  matches [("username", VStr u)] d = true.
Proof.
  intros H. unfold matches. simpl. rewrite H. simpl.
  now rewrite String.eqb_refl.
Qed.

Lemma username_free u l :
  List.find (matches [("username", VStr u)]) l = None ->
  ~ In (Some (VStr u)) (usernames l).
Proof.
  intros Hf Hin. unfold usernames in Hin. apply in_map_iff in Hin as (d & Hd & Hin).
  pose proof (find_none _ _ Hf d Hin) as Hm. cbv beta in Hm.
  now rewrite matches_username_field in Hm.
Qed.

Lemma serve_usernames r w :
  NoDup (usernames (documents "teammember" w)) ->
  NoDup (usernames (documents "teammember" (serve r w))).
Proof.
  intros Hw.
  destruct (serve_teammember_docs r w) as [->|(fresh & data & _ & Hf & ->)];
    [assumption|].
  unfold usernames. rewrite List.map_app. apply NoDup_app. split; [exact Hw|].
  split; [|apply NoDup_singleton].
  intros x Hx Hx'. apply list_elem_of_singleton in Hx'. subst x.
  apply list_elem_of_In in Hx. now apply (username_free _ _ Hf).
Qed.

(** X7: usernames stay unique: if no two stored team members share a
    username, no sequence of requests makes two of them share one. *)
Theorem X7_usernames_unique rs w :
  NoDup (usernames (documents "teammember" w)) ->
  NoDup (usernames (documents "teammember" (run rs w))).
Proof.
  revert w. induction rs as [|r rs IH]; intros w Hw; cbn [run fold_left].
  - exact Hw.
  - apply IH. now apply serve_usernames.
Qed.

Lemma X7_witness :
  NoDup (usernames (documents "teammember" init))
  /\ NoDup (usernames (documents "teammember"
              (run [req_create_team_member oid1 alice;
                    req_create_team_member oid2 alice2] init))).
Proof.
  assert (H : NoDup (usernames (documents "teammember" init))) by constructor.
  split; [exact H | exact (X7_usernames_unique _ init H)].
Defined.

(** ** Team members as the handlers store them *)

Lemma created_is_member d : is_created_member d -> is_team_member d.
Proof. intros (n & p & Hn & Hp & _ & Ha). now exists n, p, true. Qed.

Lemma serve_created_members r w :
  Forall is_created_member (documents "teammember" w) ->
  Forall is_created_member (documents "teammember" (serve r w)).
Proof.
  intros Hw.
  destruct (serve_teammember_docs r w) as [->|(fresh & data & _ & _ & ->)];
    [assumption|].
  apply Forall_app. split; [assumption|].
  apply Forall_cons. split; [|constructor].
  now exists (TeamCreate.username data), (TeamCreate.password data).
Qed.

Lemma run_created_members rs w :
  Forall is_created_member (documents "teammember" w) ->
  Forall is_created_member (documents "teammember" (run rs w)).
Proof.
  revert w. induction rs as [|r rs IH]; intros w Hw; cbn [run fold_left].
  - exact Hw.
  - apply IH. now apply serve_created_members.
Qed.

Lemma run_store rs w : db w = None <-> db (run rs w) = None.
Proof.
  revert w. induction rs as [|r rs IH]; intros w; cbn [run fold_left].
  - reflexivity.
  - fold (run rs (serve r w)). rewrite <- IH. apply serve_store.
Qed.

Lemma login_created payload d :
  Forall is_created_member (docs d "teammember") ->
  ((exists u, In u (docs d "teammember")
      /\ dict_get "username" (body u)
         = Some (VStr (LoginRequest.username payload))
      /\ dict_get "password" (body u)
         = Some (VStr (LoginRequest.password payload))) ->
   team_login payload (World (Some d))
   = (Ok (LoginResponse.Build "team" (LoginRequest.username payload)),
      World (Some d)))
  /\ ((forall u, In u (docs d "teammember") ->
         ~ (dict_get "username" (body u)
            = Some (VStr (LoginRequest.username payload))
            /\ dict_get "password" (body u)
               = Some (VStr (LoginRequest.password payload)))) ->
      team_login payload (World (Some d))
      = (Raise invalid_credentials, World (Some d))).
Proof.
  intros Hc.
  assert (Hshape : Forall is_team_member (docs d "teammember")).
  { eapply Forall_impl; [exact Hc|]. apply created_is_member. }
  destruct (List.find (matches [("username", VStr (LoginRequest.username payload));
                      ("password", VStr (LoginRequest.password payload));
                      ("is_active", VBool true)]) (docs d "teammember"))
    as [u|] eqn:Hf.
  - destruct (find_accepts _ _ _ Hshape Hf) as (Hin & Hname & Hpw & Hact).
    split.
    + intros _. exact (team_login_found _ _ _ _ Hf Hname).
    + intros Hno. exfalso. apply (Hno u Hin). auto.
  - split.
    + intros (u & Hin & Hname & Hpw). exfalso.
      rewrite Forall_forall in Hc, Hshape.
      destruct (Hc u) as (n & p & _ & _ & _ & Hact); [now apply list_elem_of_In|].
      pose proof (find_none _ _ Hf u Hin) as Hm. cbv beta in Hm.
      assert (Hacc : accepts payload u) by (repeat split; assumption).
      apply (matches_login payload u) in Hacc;
        [congruence | apply Hshape; now apply list_elem_of_In].
    + intros _. exact (team_login_none _ _ Hf).
Qed.

(** X8: no request can deactivate an account or store another role: after
    any sequence of requests on an empty store every team member is active
    with role team, so a login succeeds exactly when some stored record has
    the request's username and password, and is answered 401 otherwise. *)
Theorem X8_reachable_login rs payload :
  exists d,
    run rs init = World (Some d)
    /\ Forall is_created_member (docs d "teammember")
    /\ ((exists u, In u (docs d "teammember")
           /\ dict_get "username" (body u)
              = Some (VStr (LoginRequest.username payload))
           /\ dict_get "password" (body u)
              = Some (VStr (LoginRequest.password payload))) ->
        team_login payload (World (Some d))
        = (Ok (LoginResponse.Build "team" (LoginRequest.username payload)),
           World (Some d)))
    /\ ((forall u, In u (docs d "teammember") ->
           ~ (dict_get "username" (body u)
              = Some (VStr (LoginRequest.username payload))
              /\ dict_get "password" (body u)
                 = Some (VStr (LoginRequest.password payload)))) ->
        team_login payload (World (Some d))
        = (Raise invalid_credentials, World (Some d))).
Proof.
  pose proof (run_created_members rs init (List.Forall_nil _)) as Hc.
  pose proof (run_store rs init) as Hs.
  destruct (run rs init) as [[d|]].
  - exists d. split; [reflexivity|]. split; [exact Hc|].
    now apply login_created.
  - exfalso. cbn in Hs. destruct Hs as [_ Hs]. specialize (Hs eq_refl).
    discriminate.
Qed.

(** ** Creating and then using what was created *)

Lemma find_none_weaken {A} (p p' : A -> bool) l :
  (forall x, p' x = true -> p x = true) ->
  List.find p l = None -> List.find p' l = None.
Proof.
  intros Himp. induction l as [|x l IH]; simpl; [reflexivity|].
  destruct (p x) eqn:Hp; [discriminate|].
  destruct (p' x) eqn:Hp'; [|exact IH].
  rewrite (Himp x Hp') in Hp. discriminate.
Qed.

Lemma find_app_none {A} (p : A -> bool) l l' :
  List.find p l = None -> List.find p (l ++ l') = List.find p l'.
Proof.
  induction l as [|x l IH]; simpl; [reflexivity|].
  destruct (p x); [discriminate | exact IH].
Qed.

Lemma matches_cons c q d : matches (c :: q) d = matches [c] d && matches q d.
Proof. unfold matches. simpl. destruct c. now rewrite andb_true_r. Qed.

Lemma login_after_create fresh data d pw :
  List.find (matches [("username", VStr (TeamCreate.username data))])
    (docs d "teammember") = None ->
  List.find (matches [("username", VStr (TeamCreate.username data));
                      ("password", VStr pw); ("is_active", VBool true)])
    (docs d "teammember" ++ [Stored fresh (model_dump (member_of data))])
  = if String.eqb pw (TeamCreate.password data)
    then Some (Stored fresh (model_dump (member_of data)))
    else None.
Proof.
  intros Hf. rewrite find_app_none.
  - cbn [List.find]. unfold matches. simpl.
    rewrite String.eqb_refl. simpl.
    now destruct (String.eqb pw (TeamCreate.password data)).
  - eapply find_none_weaken; [|exact Hf].
    intros x. rewrite (matches_cons _ [_; _]). now intros [H _]%andb_prop.
Qed.

(** X9: a team member who has just been created can log in: with a free
    username and a fresh identifier the creation succeeds, the login with
    the same username and password then succeeds with role team, and the
    login with that username and any other password is answered 401. *)
Theorem X9_created_member_logs_in fresh d data :
  Forall (fun u => _id u <> fresh) (docs d "teammember") ->
  List.find (matches [("username", VStr (TeamCreate.username data))])
    (docs d "teammember") = None ->
  exists d1,
    create_team_member fresh data (World (Some d))
    = (Ok [("id", VStr (str_oid fresh))], World (Some d1))
    /\ team_login (LoginRequest.Build (TeamCreate.username data)
                     (TeamCreate.password data)) (World (Some d1))
       = (Ok (LoginResponse.Build "team" (TeamCreate.username data)),
          World (Some d1))
    /\ forall pw, pw <> TeamCreate.password data ->
         team_login (LoginRequest.Build (TeamCreate.username data) pw)
           (World (Some d1))
         = (Raise invalid_credentials, World (Some d1)).
Proof.
  intros Hfresh Hfree.
  rewrite (create_team_member_new _ _ _ Hfree).
  rewrite existsb_id_fresh by assumption.
  eexists. split; [reflexivity|]. split.
  - eapply team_login_found.
    + rewrite docs_insert_same. cbn [LoginRequest.username LoginRequest.password].
      rewrite (login_after_create fresh data d _ Hfree).
      now rewrite String.eqb_refl.
    + reflexivity.
  - intros pw Hpw. apply team_login_none.
    rewrite docs_insert_same. cbn [LoginRequest.username LoginRequest.password].
    rewrite (login_after_create fresh data d pw Hfree).
    apply String.eqb_neq in Hpw. now rewrite Hpw.
Qed.

Lemma X9_witness :
  Forall (fun u => _id u <> oid1) (docs empty_db "teammember")
  /\ List.find (matches [("username", VStr (TeamCreate.username alice))])
       (docs empty_db "teammember") = None
  /\ exists d1,
    create_team_member oid1 alice init
    = (Ok [("id", VStr (str_oid oid1))], World (Some d1))
    /\ team_login (LoginRequest.Build (TeamCreate.username alice)
                     (TeamCreate.password alice)) (World (Some d1))
       = (Ok (LoginResponse.Build "team" (TeamCreate.username alice)),
          World (Some d1))
    /\ forall pw, pw <> TeamCreate.password alice ->
         team_login (LoginRequest.Build (TeamCreate.username alice) pw)
           (World (Some d1))
         = (Raise invalid_credentials, World (Some d1)).
Proof.
  assert (H1 : Forall (fun u => _id u <> oid1) (docs empty_db "teammember"))
    by constructor.
  assert (H2 : List.find (matches [("username", VStr (TeamCreate.username alice))])
                 (docs empty_db "teammember") = None) by reflexivity.
  split; [exact H1|]. split; [exact H2|].
  exact (X9_created_member_logs_in oid1 empty_db alice H1 H2).
Defined.

Lemma create_complaint_new fresh data d :
  Forall (fun u => _id u <> fresh) (docs d "complaint") ->
  create_complaint fresh data (World (Some d))
  = (Ok [("id", VStr (str_oid fresh))],
     World (Some (Database
       (<["complaint" := docs d "complaint"
                         ++ [Stored fresh (model_dump (complaint_of data))]]>
          (colls d))
       (oplog d ++ [cmd_insert_one "complaint"
                      (Stored fresh (model_dump (complaint_of data)))])))).
Proof.
  intros Hfresh. unfold create_complaint. cbn [Complaint.new default].
  fold (complaint_of data).
  unfold create_document, bind, insert_one, with_db, ret. cbn [db].
  now rewrite existsb_id_fresh.
Qed.

(** X10: the identifier a complaint creation returns addresses the created
    complaint: a status update with that string and an allowed status
    succeeds and sets the status and [updated_at] of the created complaint,
    and a note append with that string succeeds and makes the note its only
    note; in both cases the fields given at creation are kept. *)
Theorem X10_returned_id_addresses_complaint fresh d cdata now sdata
    now1 now2 ndata username :
  generated fresh ->
  Forall (fun u => _id u <> fresh) (docs d "complaint") ->
  StatusUpdate.status sdata ∈ allowed ->
  exists id d1,
    create_complaint fresh cdata (World (Some d))
    = (Ok [("id", VStr id)], World (Some d1))
    /\ (exists d2 b,
          update_status now id sdata (World (Some d1))
          = (Ok [("ok", VBool true)], World (Some d2))
          /\ docs d2 "complaint" = docs d "complaint" ++ [Stored fresh b]
          /\ dict_get "status" b = Some (VStr (StatusUpdate.status sdata))
          /\ dict_get "updated_at" b = Some (VDate now)
          /\ forall k, k <> "status" -> k <> "updated_at" ->
               dict_get k b = dict_get k (model_dump (complaint_of cdata)))
    /\ (exists d2 b,
          add_note now1 now2 id ndata username (World (Some d1))
          = (Ok [("ok", VBool true)], World (Some d2))
          /\ docs d2 "complaint" = docs d "complaint" ++ [Stored fresh b]
          /\ notes_of b = [note_of username ndata now1]
          /\ dict_get "updated_at" b = Some (VDate now2)
          /\ forall k, k <> "notes" -> k <> "updated_at" ->
               dict_get k b = dict_get k (model_dump (complaint_of cdata))).
Proof.
  intros Hgen Hfresh Hin.
  exists (str_oid fresh). eexists.
  split; [now apply create_complaint_new|].
  pose proof (ObjectId_str_oid fresh Hgen) as Hid.
  split.
  - eexists. eexists. split.
    + apply (update_status_hit now (str_oid fresh) fresh sdata _
               (docs d "complaint")
               (Stored fresh (model_dump (complaint_of cdata))) []);
        auto using docs_insert_same.
    + split; [apply docs_insert_same|]. cbn [body].
      split; [rewrite dict_get_set_other, dict_get_set_same by discriminate;
              reflexivity|].
      split; [apply dict_get_set_same|].
      intros k H1 H2. rewrite !dict_get_set_other by congruence. reflexivity.
  - eexists. eexists. split.
    + apply (add_note_hit now1 now2 (str_oid fresh) fresh ndata username _
               (docs d "complaint")
               (Stored fresh (model_dump (complaint_of cdata))) []);
        auto using docs_insert_same.
      right. now exists [].
    + split; [apply docs_insert_same|]. cbn [body].
      split; [apply notes_of_appended|].
      split; [apply dict_get_set_same|].
      intros k H1 H2. rewrite !dict_get_set_other by congruence. reflexivity.
Qed.

Lemma X10_witness :
  generated oid1
  /\ Forall (fun u => _id u <> oid1) (docs empty_db "complaint")
  /\ ("progress" ∈ allowed)
  /\ exists id d1,
    create_complaint oid1 no_signal init = (Ok [("id", VStr id)], World (Some d1))
    /\ (exists d2 b,
          update_status 5 id (StatusUpdate.Build "progress") (World (Some d1))
          = (Ok [("ok", VBool true)], World (Some d2))
          /\ docs d2 "complaint" = docs empty_db "complaint" ++ [Stored oid1 b]
          /\ dict_get "status" b = Some (VStr "progress")
          /\ dict_get "updated_at" b = Some (VDate 5)
          /\ forall k, k <> "status" -> k <> "updated_at" ->
               dict_get k b = dict_get k (model_dump (complaint_of no_signal)))
    /\ (exists d2 b,
          add_note 6 7 id (NoteCreate.Build "hi") None (World (Some d1))
          = (Ok [("ok", VBool true)], World (Some d2))
          /\ docs d2 "complaint" = docs empty_db "complaint" ++ [Stored oid1 b]
          /\ notes_of b = [note_of None (NoteCreate.Build "hi") 6]
          /\ dict_get "updated_at" b = Some (VDate 7)
          /\ forall k, k <> "notes" -> k <> "updated_at" ->
               dict_get k b = dict_get k (model_dump (complaint_of no_signal))).
Proof.
  assert (H1 : generated oid1) by reflexivity.
  assert (H2 : Forall (fun u => _id u <> oid1) (docs empty_db "complaint"))
    by constructor.
  assert (H3 : "progress" ∈ allowed)
    by (apply (bool_decide_unpack _); now vm_compute).
  split; [exact H1|]. split; [exact H2|]. split; [exact H3|].
  exact (X10_returned_id_addresses_complaint oid1 empty_db no_signal 5
           (StatusUpdate.Build "progress") 6 7 (NoteCreate.Build "hi") None
           H1 H2 H3).
Defined.

Lemma X8_witness :
  team_login (LoginRequest.Build "alice" "pw1")
    (run [req_create_team_member oid1 alice] init)
  = (Ok (LoginResponse.Build "team" "alice"),
     run [req_create_team_member oid1 alice] init).
Proof.
  destruct (X8_reachable_login [req_create_team_member oid1 alice]
              (LoginRequest.Build "alice" "pw1")) as (d & Hrun & _ & Hyes & _).
  rewrite Hrun. apply Hyes.
  exists (Stored oid1 (model_dump (member_of alice))).
  split; [|split; reflexivity].
  vm_compute in Hrun. injection Hrun as <-. left. reflexivity.
Defined.

(** ** The administrator *)

(** X11: the administrator's login compares the request with the configured
    pair and nothing else: it succeeds with role admin exactly when username
    and password are both equal to the configured ones and is answered 401
    otherwise; it neither reads nor changes the store, also when there is
    none. *)
Theorem X11_admin_login environ payload w :
  (LoginRequest.username payload = ADMIN_USERNAME environ
   /\ LoginRequest.password payload = ADMIN_PASSWORD environ
   /\ admin_login environ payload w
      = (Ok (LoginResponse.Build "admin" (ADMIN_USERNAME environ)), w))
  \/ ((LoginRequest.username payload <> ADMIN_USERNAME environ
       \/ LoginRequest.password payload <> ADMIN_PASSWORD environ)
      /\ admin_login environ payload w = (Raise invalid_credentials, w)).
Proof.
  unfold admin_login.
  destruct (String.eqb_spec (LoginRequest.username payload) (ADMIN_USERNAME environ))
    as [Hu|Hu]; cbn [andb].
  - destruct (String.eqb_spec (LoginRequest.password payload)
                (ADMIN_PASSWORD environ)) as [Hp|Hp].
    + left. auto.
    + right. auto.
  - right. auto.
Qed.

(** X12: the answer of the root route gives the administrator's access
    away: whatever the environment, the pair read off its [admin_hint] logs
    in as admin. *)
Theorem X12_root_hint_logs_in environ w :
  exists resp creds,
    root environ w = (Ok resp, w)
    /\ hint_credentials resp = Some creds
    /\ admin_login environ creds w
       = (Ok (LoginResponse.Build "admin" (ADMIN_USERNAME environ)), w).
Proof.
  eexists. eexists. split; [reflexivity|]. split; [reflexivity|].
  unfold admin_login. cbn [LoginRequest.username LoginRequest.password].
  now rewrite !String.eqb_refl.
Qed.

(** ** What requests never do *)

(** X13: the login and the three listings never write: they leave the
    world, documents and log of commands, exactly as it was. *)
Theorem X13_reads_do_not_write r w : read_only r -> serve r w = w.
Proof.
  destruct r; cbn [read_only serve]; intros H; try contradiction.
  - apply team_login_world.
  - unfold list_team. apply listing_world.
  - unfold list_complaints. apply listing_world.
  - unfold team_my_complaints. apply listing_world.
Qed.

Lemma X13_witness :
  read_only (req_list_complaints (Some "alice"))
  /\ serve (req_list_complaints (Some "alice")) sample = sample.
Proof.
  split; [exact I|].
  exact (X13_reads_do_not_write (req_list_complaints (Some "alice")) sample I).
Defined.

Lemma serve_log r w :
  exists cmds, log (serve r w) = log w ++ cmds /\ (length cmds <= 1)%nat.
Proof.
  assert (Hnil : exists cmds, log w = log w ++ cmds /\ (length cmds <= 1)%nat).
  { exists []. rewrite app_nil_r. split; [reflexivity | simpl; lia]. }
  destruct r; cbn [serve].
  - now rewrite team_login_world.
  - destruct (create_team_member_world fresh data w) as [->|(d & -> & ->)];
      [assumption|].
    destruct (insert_one_effect "teammember" fresh
                (model_dump (TeamMember.Build (TeamCreate.username data)
                   (TeamCreate.password data) (TeamCreate.full_name data)
                   "team" true)) d) as (d' & -> & Hlog & _).
    eexists. split; [exact Hlog | simpl; lia].
  - unfold list_team. now rewrite listing_world.
  - destruct (create_complaint_world fresh data w) as (c & _ & _ & ->).
    destruct w as [[d|]]; cbn [db]; [|assumption].
    destruct (insert_one_effect "complaint" fresh (model_dump c) d)
      as (d' & -> & Hlog & _).
    eexists. split; [exact Hlog | simpl; lia].
  - unfold list_complaints. now rewrite listing_world.
  - unfold team_my_complaints. now rewrite listing_world.
  - destruct (update_status_world now complaint_id data w)
      as [->|(d & o & -> & _ & _ & ->)]; [assumption|].
    destruct (update_one_effect "complaint" [("_id", VOid o)]
                [op_set "status" (VStr (StatusUpdate.status data));
                 op_set "updated_at" (VDate now)] d)
      as (d' & -> & Hlog & _).
    eexists. split; [exact Hlog | simpl; lia].
  - destruct (add_note_world now1 now2 complaint_id data username w)
      as [->|(d & o & -> & _ & ->)]; [assumption|].
    destruct (update_one_effect "complaint" [("_id", VOid o)]
                [op_push "notes" (note_of username data now1);
                 op_set "updated_at" (VDate now2)] d)
      as (d' & -> & Hlog & _).
    eexists. split; [exact Hlog | simpl; lia].
Qed.

(** X14: every request is at most one write: serving a request extends the
    log of commands sent to the store by no command or by a single one, and
    a sequence of requests by at most one command a request; earlier
    commands are never dropped. *)
Theorem X14_one_write_per_request rs w :
  exists cmds,
    log (run rs w) = log w ++ cmds /\ (length cmds <= length rs)%nat.
Proof.
  revert w. induction rs as [|r rs IH]; intros w; cbn [run fold_left].
  - exists []. rewrite app_nil_r. split; [reflexivity | simpl; lia].
  - destruct (serve_log r w) as (c1 & H1 & L1).
    destruct (IH (serve r w)) as (c2 & H2 & L2).
    fold (run rs (serve r w)). exists (c1 ++ c2). split.
    + now rewrite H2, H1, app_assoc.
    + rewrite length_app. simpl. lia.
Qed.

(** X15: the handlers write to the collections [teammember] and
    [complaint] only: the documents of any other collection are the same
    after any sequence of requests. *)
Theorem X15_only_two_collections rs w name :
  name <> "teammember" -> name <> "complaint" ->
  documents name (run rs w) = documents name w.
Proof.
  intros Ht Hc. revert w. induction rs as [|r rs IH]; intros w;
    cbn [run fold_left]; [reflexivity|].
  fold (run rs (serve r w)). rewrite IH. now apply serve_other_docs.
Qed.

Lemma X15_witness :
  "audit" <> "teammember" /\ "audit" <> "complaint"
  /\ documents "audit"
       (run [req_create_team_member oid1 alice;
             req_create_complaint oid2 no_signal] init)
     = documents "audit" init.
Proof.
  assert (H1 : "audit" <> "teammember") by discriminate.
  assert (H2 : "audit" <> "complaint") by discriminate.
  split; [exact H1|]. split; [exact H2|].
  exact (X15_only_two_collections _ init "audit" H1 H2).
Defined.

(** ** Without a store *)

(** X16: without a configured store the handlers that open a collection
    answer 500 and nothing else happens: the team login, the creation of a
    team member, the note append, and the status update whose status is
    allowed (an invalid status is still answered 400 first). *)
Theorem X16_no_store payload fresh tdata now sdata now1 now2 cid ndata username :
  team_login payload (World None) = (Raise not_configured, World None)
  /\ create_team_member fresh tdata (World None)
     = (Raise not_configured, World None)
  /\ add_note now1 now2 cid ndata username (World None)
     = (Raise not_configured, World None)
  /\ update_status now cid sdata (World None)
     = (Raise (if bool_decide (StatusUpdate.status sdata ∈ allowed)
               then not_configured
               else HTTPException 400 "Invalid status"), World None).
Proof.
  split; [reflexivity|]. split; [reflexivity|]. split; [reflexivity|].
  destruct (decide (StatusUpdate.status sdata ∈ allowed)) as [Hin|Hout].
  - rewrite bool_decide_eq_true_2 by assumption.
    now apply update_status_no_store.
  - rewrite bool_decide_eq_false_2 by assumption.
    now apply update_status_invalid.
Qed.

(** ** How requests fail *)

Lemma apply_update_error u d e : apply_update u d = Raise e -> e = WriteError.
Proof.
  revert d. induction u as [|o u IH]; intros d; simpl; [discriminate|].
  destruct (apply_op o d) as [d'|e'] eqn:Ho.
  - apply IH.
  - intros [= <-]. destruct o as [k v|k v]; simpl in Ho; [discriminate|].
    destruct (dict_get k d) as [[]|]; congruence.
Qed.

Lemma apply_note_error note now2 d e :
  apply_update [op_push "notes" note; op_set "updated_at" (VDate now2)] d
  = Raise e -> ~ notes_array d.
Proof.
  intros He Hn. now rewrite (apply_note_ok note now2 d Hn) in He.
Qed.

Lemma update_first_error q u l e :
  update_first q u l = Raise e ->
  exists x, In x l /\ apply_update u (body x) = Raise e.
Proof.
  induction l as [|d l IH]; simpl; [discriminate|].
  destruct (matches q d).
  - destruct (apply_update u (body d)) as [b|e'] eqn:Hu; [discriminate|].
    intros [= <-]. exists d. auto.
  - destruct (update_first q u l) as [[n l']|e'] eqn:Hr; [discriminate|].
    intros [= <-]. destruct (IH eq_refl) as (x & Hin & Hx). exists x. auto.
Qed.

Lemma found_has_username n q d :
  matches (("username", VStr n) :: q) d = true ->
  dict_get "username" (body d) <> None.
Proof.
  rewrite matches_cons. intros [H _]%andb_prop Hnone.
  unfold matches in H. simpl in H. now rewrite Hnone in H.
Qed.

Lemma outcome_spec r w e :
  outcome r w = Some e ->
  request_error e
  \/ (db w = None /\ (e = not_configured \/ e = StoreUnavailable))
  \/ (e = ResponseValidationError
      /\ ~ Forall is_team_member (documents "teammember" w))
  \/ (e = WriteError /\ ~ notes_arrays w).
Proof.
  unfold request_error.
  destruct r; cbn [outcome]; unfold failure.
  - (* team_login *)
    destruct w as [[d|]].
    2: { intros [= <-]. right. left. auto. }
    unfold team_login. run_monad.
    destruct (List.find _ _) as [u|] eqn:Hf; simpl.
    2: { intros [= <-]. left. auto. }
    apply find_some in Hf as [Hin Hm].
    pose proof (found_has_username _ _ _ Hm) as Hk.
    destruct (dict_get "username" (body u)) as [v|] eqn:Hv; [|contradiction].
    destruct v; simpl; intros [= <-];
      (right; right; left; split; [reflexivity|];
       rewrite Forall_forall; intros Hall;
       destruct (Hall u) as (n & p & a & Hn & _);
       [now apply list_elem_of_In | congruence]).
  - (* create_team_member *)
    destruct w as [[d|]].
    2: { intros [= <-]. right. left. auto. }
    destruct (List.find (matches [("username", VStr (TeamCreate.username data))])
                (docs d "teammember")) as [u|] eqn:Hf.
    + rewrite (create_team_member_duplicate _ _ _ _ Hf). intros [= <-].
      left. auto.
    + rewrite (create_team_member_new _ _ _ Hf).
      destruct (existsb _ _); [|discriminate].
      intros [= <-]. left. auto 10.
  - (* list_team *)
    destruct w as [[d|]]; [discriminate|].
    intros [= <-]. right. left. auto.
  - (* create_complaint *)
    destruct w as [[d|]].
    2: { intros [= <-]. right. left. auto. }
    destruct (create_complaint_eval fresh data d) as (c & _ & _ & ->).
    destruct (existsb _ _); [|discriminate].
    intros [= <-]. left. auto 10.
  - (* list_complaints *)
    destruct w as [[d|]]; [discriminate|].
    intros [= <-]. right. left. auto.
  - (* team_my_complaints *)
    destruct w as [[d|]]; [discriminate|].
    intros [= <-]. right. left. auto.
  - (* update_status *)
    destruct (decide (StatusUpdate.status data ∈ allowed)) as [Hin|Hout].
    2: { rewrite update_status_invalid by assumption. intros [= <-]. left. auto. }
    destruct w as [[d|]].
    2: { rewrite update_status_no_store by assumption. intros [= <-].
         right. left. auto. }
    destruct (ObjectId complaint_id) as [o|] eqn:Hid.
    2: { rewrite update_status_invalid_id by assumption. intros [= <-].
         left. eauto 10. }
    unfold update_status.
    rewrite bool_decide_eq_false_2 by (intros Hn; contradiction).
    unfold bind at 1 2, collection, lift_option, ret. cbn [db]. rewrite Hid.
    unfold bind, update_one, with_db. cbn [db].
    destruct (update_first _ _ (docs d "complaint")) as [[[|n] l']|e'] eqn:Hu;
      simpl.
    + intros [= <-]. left. auto 10.
    + discriminate.
    + apply update_first_error in Hu as (x & _ & Hx). discriminate.
  - (* add_note *)
    destruct w as [[d|]].
    2: { intros [= <-]. right. left. auto. }
    destruct (ObjectId complaint_id) as [o|] eqn:Hid.
    2: { rewrite add_note_invalid_id by assumption. intros [= <-].
         left. eauto 10. }
    unfold add_note. fold (note_of username data now1).
    unfold bind at 1 2, collection, lift_option, ret. cbn [db]. rewrite Hid.
    unfold bind, update_one, with_db. cbn [db].
    destruct (update_first _ _ (docs d "complaint")) as [[[|n] l']|e'] eqn:Hu;
      simpl.
    + intros [= <-]. left. auto 10.
    + discriminate.
    + intros [= <-]. apply update_first_error in Hu as (x & Hin & Hx).
      pose proof (apply_update_error _ _ _ Hx) as ->.
      right. right. right. split; [reflexivity|].
      unfold notes_arrays, documents. cbn [db].
      rewrite Forall_forall. intros Hall.
      apply (apply_note_error _ _ _ _ Hx).
      apply Hall. now apply list_elem_of_In.
Qed.

(** X17: on any store, a request that fails fails in one of the ways the
    handlers provide for: a 400, 401 or 404 answer, an identifier that is
    not an [ObjectId], a generated identifier already taken; a 500 or a
    store-unavailable failure only when no store is configured; a response
    validation error only when a stored team member lacks its fields; a
    write error only when a stored complaint has [notes] that are no array.
    No request fails on a missing key, on an unopened store handle or on a
    schema validation. *)
Theorem X17_failures r w e :
  outcome r w = Some e ->
  (request_error e
   \/ (db w = None /\ (e = not_configured \/ e = StoreUnavailable))
   \/ (e = ResponseValidationError
       /\ ~ Forall is_team_member (documents "teammember" w))
   \/ (e = WriteError /\ ~ notes_arrays w))
  /\ e <> TypeError /\ e <> ValidationError /\ (forall k, e <> KeyError k).
Proof.
  intros H. pose proof (outcome_spec r w e H) as Hs. split; [exact Hs|].
  unfold request_error, invalid_credentials, not_found, not_configured in Hs.
  split; [|split]; [| |intros k]; intros ->;
    decompose [or and ex] Hs; discriminate.
Qed.

Lemma X17_witness :
  outcome (req_add_note 6 7 id2 (NoteCreate.Build "hi") None) sample
  = Some not_found
  /\ (request_error not_found
      \/ (db sample = None /\ (not_found = not_configured \/ not_found = StoreUnavailable))
      \/ (not_found = ResponseValidationError
          /\ ~ Forall is_team_member (documents "teammember" sample))
      \/ (not_found = WriteError /\ ~ notes_arrays sample))
  /\ not_found <> TypeError /\ not_found <> ValidationError
  /\ (forall k, not_found <> KeyError k).
Proof.
  assert (H : outcome (req_add_note 6 7 id2 (NoteCreate.Build "hi") None) sample
              = Some not_found) by reflexivity.
  split; [exact H|].
  exact (X17_failures _ sample not_found H).
Defined.

(** ** Stores built by the handlers *)

Lemma note_update_array u x b :
  handler_update u -> notes_array (body x) ->
  apply_update u (body x) = Ok b -> notes_array b.
Proof.
  intros [s now Hs|note now2] Hn Hb.
  - injection Hb as <-. unfold notes_array in *.
    rewrite !dict_get_set_other by discriminate. exact Hn.
  - rewrite (apply_note_ok _ _ _ Hn) in Hb. injection Hb as <-.
    apply notes_array_appended.
Qed.

Lemma serve_notes_arrays r w : notes_arrays w -> notes_arrays (serve r w).
Proof.
  unfold notes_arrays. intros Hw.
  destruct (serve_complaint_docs r w)
    as [->|[(fresh & c & Hc & ->)|(l1 & x & l2 & b & u & Hu & Hl & Hb & ->)]].
  - assumption.
  - apply Forall_app. split; [assumption|].
    apply Forall_cons. split; [|constructor].
    right. exists []. simpl. now rewrite Hc.
  - rewrite Hl in Hw. apply Forall_app in Hw as [H1 H2].
    apply Forall_cons in H2 as [Hx H2].
    apply Forall_app. split; [assumption|].
    apply Forall_cons. split; [|assumption].
    cbn [body]. now apply (note_update_array u x).
Qed.

Lemma run_notes_arrays rs w : notes_arrays w -> notes_arrays (run rs w).
Proof.
  revert w. induction rs as [|r rs IH]; intros w Hw; cbn [run fold_left].
  - exact Hw.
  - apply IH. now apply serve_notes_arrays.
Qed.

(** X18: a store built by the handlers from an empty one never makes a
    request fail by its state: after any sequence of requests a further
    request either succeeds or fails with 400, 401, 404, an identifier that
    is not an [ObjectId], or a generated identifier already taken. *)
Theorem X18_reachable_failures rs r e :
  outcome r (run rs init) = Some e -> request_error e.
Proof.
  intros H.
  destruct (outcome_spec r (run rs init) e H) as [Hr|[[Hs _]|[[_ Hn]|[_ Hn]]]].
  - exact Hr.
  - apply run_store in Hs. discriminate.
  - exfalso. apply Hn. apply run_team_members.
  - exfalso. apply Hn. apply run_notes_arrays. constructor.
Qed.

Lemma X18_witness :
  outcome (req_update_status 9 id1 (StatusUpdate.Build "bogus"))
    (run [req_create_complaint oid1 no_signal] init)
  = Some (HTTPException 400 "Invalid status")
  /\ request_error (HTTPException 400 "Invalid status").
Proof.
  assert (H : outcome (req_update_status 9 id1 (StatusUpdate.Build "bogus"))
                (run [req_create_complaint oid1 no_signal] init)
              = Some (HTTPException 400 "Invalid status")) by reflexivity.
  split; [exact H|].
  exact (X18_reachable_failures [req_create_complaint oid1 no_signal]
           (req_update_status 9 id1 (StatusUpdate.Build "bogus")) _ H).
Defined.

(** ** Listings *)

Lemma matches_assigned u x :
  assignable x -> matches [("assigned_to", VStr u)] x = assigned_to_b u x.
Proof.
  unfold matches, assigned_to_b. simpl.
  intros [H|[a H]]; rewrite H; simpl; [reflexivity | apply andb_true_r].
Qed.

Lemma filter_agree {A} (p q : A -> bool) l :
  Forall (fun x => p x = q x) l -> List.filter p l = List.filter q l.
Proof.
  induction 1 as [|x l Hx _ IH]; simpl; [reflexivity|].
  now rewrite Hx, IH.
Qed.

(** X19: the team listing returns, in storage order, exactly the complaints
    whose [assigned_to] is the given username, each as its identifier in
    string form under [_id] followed by all its fields: every listed item
    comes from a stored complaint assigned to that username, every such
    complaint is listed, and a complaint without assignment is among the
    listed complaints of no username. *)
Theorem X19_team_listing u d :
  Forall assignable (docs d "complaint") ->
  exists items,
    team_my_complaints u (World (Some d)) = (Ok items, World (Some d))
    /\ items
       = List.map (fun x => ("_id", VStr (str_oid (_id x))) :: body x)
           (List.filter (assigned_to_b u) (docs d "complaint"))
    /\ (forall item, In item items ->
          exists x, In x (docs d "complaint")
                    /\ item = ("_id", VStr (str_oid (_id x))) :: body x
                    /\ dict_get "assigned_to" (body x) = Some (VStr u))
    /\ (forall x, In x (docs d "complaint") ->
          dict_get "assigned_to" (body x) = Some (VStr u) ->
          In (("_id", VStr (str_oid (_id x))) :: body x) items)
    /\ (forall x, In x (docs d "complaint") ->
          dict_get "assigned_to" (body x) = Some VNull ->
          ~ In x (List.filter (assigned_to_b u) (docs d "complaint"))).
Proof.
  intros Ha. eexists. split.
  { unfold team_my_complaints. run_monad.
    rewrite (filter_agree _ (assigned_to_b u)); [reflexivity|].
    eapply Forall_impl; [exact Ha|]. intros x Hx. now apply matches_assigned. }
  split.
  { apply List.map_ext. intros x. apply stringify_id_listed. }
  split; [|split].
  - intros item Hin. apply in_map_iff in Hin as (x & Hx & Hin).
    apply filter_In in Hin as [Hin Hb].
    exists x. split; [assumption|]. split; [now rewrite <- Hx|].
    unfold assigned_to_b in Hb.
    destruct (dict_get "assigned_to" (body x)) as [[]|]; try discriminate.
    apply String.eqb_eq in Hb. now subst.
  - intros x Hin Hx. apply in_map_iff. exists x.
    split; [apply stringify_id_listed|].
    apply filter_In. split; [assumption|].
    unfold assigned_to_b. rewrite Hx. apply String.eqb_refl.
  - intros x _ Hx Hin. apply filter_In in Hin as [_ Hb].
    unfold assigned_to_b in Hb. now rewrite Hx in Hb.
Qed.

(** Of a complaint for alice, an unassigned one and one for bob, alice's
    listing holds the first and nothing else. *)
Lemma X19_witness :
  Forall assignable (docs assigned_db "complaint")
  /\ team_my_complaints "alice" (World (Some assigned_db))
     = (Ok [[("_id", VStr id1);
             ("title", VStr "Slow line");
             ("description", VStr "...");
             ("customer_name", VNull);
             ("customer_contact", VNull);
             ("assigned_to", VStr "alice");
             ("status", VStr "pending");
             ("notes", VArr [])]],
        World (Some assigned_db)).
Proof.
  assert (H : Forall assignable (docs assigned_db "complaint")).
  { assert (E : docs assigned_db "complaint"
                = [Stored oid1 (model_dump (complaint_of for_alice));
                   Stored oid2 (model_dump (complaint_of no_signal));
                   Stored oid3 (model_dump (complaint_of for_bob))])
      by (vm_compute; reflexivity).
    rewrite E. constructor; [right; now exists "alice"|].
    constructor; [now left|].
    constructor; [right; now exists "bob" | constructor]. }
  split; [exact H|].
  destruct (X19_team_listing "alice" assigned_db H) as (items & Hrun & Hitems & _).
  rewrite Hrun, Hitems. vm_compute. reflexivity.
Defined.

Lemma serve_assignable r w :
  Forall assignable (documents "complaint" w) ->
  Forall assignable (documents "complaint" (serve r w)).
Proof.
  intros Hw.
  destruct (serve_complaint_docs r w)
    as [->|[(fresh & c & _ & ->)|(l1 & x & l2 & b & u & Hu & Hl & Hb & ->)]].
  - assumption.
  - apply Forall_app. split; [assumption|].
    apply Forall_cons. split; [|constructor].
    unfold assignable. simpl.
    destruct (Complaint.assigned_to c); simpl; eauto.
  - rewrite Hl in Hw. apply Forall_app in Hw as [H1 H2].
    apply Forall_cons in H2 as [Hx H2].
    apply Forall_app. split; [assumption|].
    apply Forall_cons. split; [|assumption].
    destruct (handler_update_kept u x b Hu Hb) as (_ & Hk & _).
    unfold assignable in *.
    rewrite Hk; [exact Hx|].
    unfold mutable_key. intros [H|[H|H]]; discriminate.
Qed.

(** Every complaint stored by the handlers is assigned to a username or to
    nobody. *)
Lemma run_assignable rs :
  Forall assignable (documents "complaint" (run rs init)).
Proof.
  assert (H : forall w, Forall assignable (documents "complaint" w) ->
                        Forall assignable (documents "complaint" (run rs w))).
  { induction rs as [|r rs IH]; intros w Hw; cbn [run fold_left]; [assumption|].
    apply IH. now apply serve_assignable. }
  apply H. constructor.
Qed.

(** X20: with a non-empty username the administrator's filtered listing is
    the team listing of that username. *)
Theorem X20_admin_filter_is_team_listing u w :
  u <> "" -> list_complaints (Some u) w = team_my_complaints u w.
Proof.
  intros Hu. destruct u as [|c u]; [contradiction|]. reflexivity.
Qed.

Lemma X20_witness :
  "alice" <> ""
  /\ list_complaints (Some "alice") sample = team_my_complaints "alice" sample.
Proof.
  assert (H : "alice" <> "") by discriminate.
  split; [exact H | exact (X20_admin_filter_is_team_listing "alice" sample H)].
Defined.

Lemma list_complaints_all d :
  list_complaints None (World (Some d))
  = (Ok (List.map stringify_id (docs d "complaint")), World (Some d)).
Proof.
  unfold list_complaints. run_monad. now rewrite filter_matches_nil.
Qed.

Lemma list_team_all d :
  list_team (World (Some d))
  = (Ok (List.map stringify_id (docs d "teammember")), World (Some d)).
Proof.
  unfold list_team. run_monad. now rewrite filter_matches_nil.
Qed.

(** X21: a created complaint shows up in the administrator's listing: the
    unfiltered listing after a creation is the listing before it followed
    by the new complaint, whose [_id] is the string the creation returned
    and whose fields are the request's with status pending and no notes. *)
Theorem X21_created_complaint_is_listed fresh d cdata :
  Forall (fun u => _id u <> fresh) (docs d "complaint") ->
  exists id d1 before,
    create_complaint fresh cdata (World (Some d))
    = (Ok [("id", VStr id)], World (Some d1))
    /\ list_complaints None (World (Some d)) = (Ok before, World (Some d))
    /\ list_complaints None (World (Some d1))
       = (Ok (before
              ++ [[("_id", VStr id);
                   ("title", VStr (ComplaintCreate.title cdata));
                   ("description", VStr (ComplaintCreate.description cdata));
                   ("customer_name", opt_str (ComplaintCreate.customer_name cdata));
                   ("customer_contact",
                    opt_str (ComplaintCreate.customer_contact cdata));
                   ("assigned_to", opt_str (ComplaintCreate.assigned_to cdata));
                   ("status", VStr "pending");
                   ("notes", VArr [])]]),
          World (Some d1)).
Proof.
  intros Hfresh. exists (str_oid fresh). eexists. eexists.
  split; [now apply create_complaint_new|].
  split; [apply list_complaints_all|].
  rewrite list_complaints_all, docs_insert_same, List.map_app. reflexivity.
Qed.

Lemma X21_witness :
  Forall (fun u => _id u <> oid2) (docs sample_db "complaint")
  /\ exists id d1 before,
    create_complaint oid2 no_signal sample
    = (Ok [("id", VStr id)], World (Some d1))
    /\ list_complaints None sample = (Ok before, sample)
    /\ list_complaints None (World (Some d1))
       = (Ok (before
              ++ [[("_id", VStr id);
                   ("title", VStr (ComplaintCreate.title no_signal));
                   ("description", VStr (ComplaintCreate.description no_signal));
                   ("customer_name", opt_str (ComplaintCreate.customer_name no_signal));
                   ("customer_contact",
                    opt_str (ComplaintCreate.customer_contact no_signal));
                   ("assigned_to", opt_str (ComplaintCreate.assigned_to no_signal));
                   ("status", VStr "pending");
                   ("notes", VArr [])]]),
          World (Some d1)).
Proof.
  assert (H : Forall (fun u => _id u <> oid2) (docs sample_db "complaint")).
  { constructor; [discriminate | constructor]. }
  split; [exact H|].
  exact (X21_created_complaint_is_listed oid2 sample_db no_signal H).
Defined.

(** X22: the team listing shows stored passwords: after a team member has
    been created the listing is the listing before it followed by the new
    member, with the returned identifier, role team, active, and the
    password as it was sent. *)
Theorem X22_team_listing_shows_password fresh d data :
  Forall (fun u => _id u <> fresh) (docs d "teammember") ->
  List.find (matches [("username", VStr (TeamCreate.username data))])
    (docs d "teammember") = None ->
  exists id d1 before,
    create_team_member fresh data (World (Some d))
    = (Ok [("id", VStr id)], World (Some d1))
    /\ list_team (World (Some d)) = (Ok before, World (Some d))
    /\ list_team (World (Some d1))
       = (Ok (before
              ++ [[("_id", VStr id);
                   ("username", VStr (TeamCreate.username data));
                   ("password", VStr (TeamCreate.password data));
                   ("full_name", opt_str (TeamCreate.full_name data));
                   ("role", VStr "team");
                   ("is_active", VBool true)]]),
          World (Some d1)).
Proof.
  intros Hfresh Hfree. exists (str_oid fresh). eexists. eexists. split.
  - rewrite (create_team_member_new _ _ _ Hfree).
    now rewrite existsb_id_fresh.
  - split; [apply list_team_all|].
    rewrite list_team_all, docs_insert_same, List.map_app. reflexivity.
Qed.

Lemma X22_witness :
  Forall (fun u => _id u <> oid1) (docs empty_db "teammember")
  /\ List.find (matches [("username", VStr (TeamCreate.username alice))])
       (docs empty_db "teammember") = None
  /\ exists id d1 before,
    create_team_member oid1 alice init = (Ok [("id", VStr id)], World (Some d1))
    /\ list_team init = (Ok before, init)
    /\ list_team (World (Some d1))
       = (Ok (before
              ++ [[("_id", VStr id);
                   ("username", VStr (TeamCreate.username alice));
                   ("password", VStr (TeamCreate.password alice));
                   ("full_name", opt_str (TeamCreate.full_name alice));
                   ("role", VStr "team");
                   ("is_active", VBool true)]]),
          World (Some d1)).
Proof.
  assert (H1 : Forall (fun u => _id u <> oid1) (docs empty_db "teammember"))
    by constructor.
  assert (H2 : List.find (matches [("username", VStr (TeamCreate.username alice))])
                 (docs empty_db "teammember") = None) by reflexivity.
  split; [exact H1|]. split; [exact H2|].
  exact (X22_team_listing_shows_password oid1 empty_db alice H1 H2).
Defined.

(** ** C3 *)

Lemma run_team_records rs w :
  documents "teammember" w `prefix_of` documents "teammember" (run rs w).
Proof.
  revert w. induction rs as [|r rs IH]; intros w; cbn [run fold_left].
  - reflexivity.
  - etransitivity; [apply serve_team_records | apply IH].
Qed.

Lemma create_team_member_taken fresh data d u :
  In u (docs d "teammember") ->
  matches [("username", VStr (TeamCreate.username data))] u = true ->
  create_team_member fresh data (World (Some d))
  = (Raise (HTTPException 400 "Username already exists"), World (Some d)).
Proof.
  intros Hin Hu.
  destruct (List.find (matches [("username", VStr (TeamCreate.username data))])
              (docs d "teammember")) as [y|] eqn:Hf.
  - now apply (create_team_member_duplicate _ _ _ y).
  - pose proof (find_none _ _ Hf u Hin) as Hn. cbv beta in Hn. congruence.
Qed.

(** C3: once a team member has been created, every later creation request
    with the same username, whatever requests were served in between, is
    answered 400 and leaves the world as it was; the record stored by the
    first request, with its password, keeps its place in the collection,
    unaltered, through the requests in between and the rejected attempt. *)
Theorem C3_duplicate_username fresh data w r w' rs fresh2 data2 :
  create_team_member fresh data w = (Ok r, w') ->
  TeamCreate.username data2 = TeamCreate.username data ->
  create_team_member fresh2 data2 (run rs w')
  = (Raise (HTTPException 400 "Username already exists"), run rs w')
  /\ exists l b rest,
       documents "teammember" w' = l ++ [Stored fresh b]
       /\ dict_get "username" b = Some (VStr (TeamCreate.username data))
       /\ dict_get "password" b = Some (VStr (TeamCreate.password data))
       /\ documents "teammember" (run rs w') = l ++ Stored fresh b :: rest
       /\ documents "teammember"
            (snd (create_team_member fresh2 data2 (run rs w')))
          = l ++ Stored fresh b :: rest.
Proof.
  intros Hfirst Hname.
  destruct w as [[d|]]; [|discriminate].
  destruct (List.find (matches [("username", VStr (TeamCreate.username data))])
              (docs d "teammember")) as [u|] eqn:Hf.
  { rewrite (create_team_member_duplicate _ _ _ _ Hf) in Hfirst. discriminate. }
  rewrite (create_team_member_new _ _ _ Hf) in Hfirst.
  destruct (existsb _ _); [discriminate|].
  injection Hfirst as <- <-.
  match goal with |- context [run rs ?W] => set (w1 := W) end.
  assert (Hw1 : documents "teammember" w1
                = docs d "teammember"
                  ++ [Stored fresh (model_dump (member_of data))]).
  { unfold w1, documents. cbn [db]. apply docs_insert_same. }
  destruct (run_team_records rs w1) as [rest Hrest]. rewrite Hw1 in Hrest.
  rewrite <- app_assoc in Hrest. cbn [app] in Hrest.
  pose proof (run_store rs w1) as Hstore.
  destruct (run rs w1) as [[d2|]] eqn:Hrun.
  2: { exfalso. destruct Hstore as [_ Hs]. specialize (Hs eq_refl).
       unfold w1 in Hs. discriminate. }
  unfold documents in Hrest. cbn [db] in Hrest.
  assert (Hsecond : create_team_member fresh2 data2 (World (Some d2))
                    = (Raise (HTTPException 400 "Username already exists"),
                       World (Some d2))).
  { apply (create_team_member_taken _ _ _
             (Stored fresh (model_dump (member_of data)))).
    - rewrite Hrest. apply in_or_app. right. now left.
    - rewrite matches_username, Hname. apply String.eqb_refl. }
  split; [exact Hsecond|].
  exists (docs d "teammember"), (model_dump (member_of data)), rest.
  split; [exact Hw1|]. split; [reflexivity|]. split; [reflexivity|].
  rewrite Hsecond. unfold documents. cbn [db snd]. auto.
Qed.

(** Alice, then bob, then alice again. *)
Lemma C3_witness :
  create_team_member oid1 alice init
  = (Ok [("id", VStr id1)], snd (create_team_member oid1 alice init))
  /\ TeamCreate.username alice2 = TeamCreate.username alice
  /\ create_team_member oid3 alice2
       (run [req_create_team_member oid2 bob]
          (snd (create_team_member oid1 alice init)))
     = (Raise (HTTPException 400 "Username already exists"),
        run [req_create_team_member oid2 bob]
          (snd (create_team_member oid1 alice init)))
  /\ exists l b rest,
       documents "teammember" (snd (create_team_member oid1 alice init))
       = l ++ [Stored oid1 b]
       /\ dict_get "username" b = Some (VStr "alice")
       /\ dict_get "password" b = Some (VStr "pw1")
       /\ documents "teammember"
            (run [req_create_team_member oid2 bob]
               (snd (create_team_member oid1 alice init)))
          = l ++ Stored oid1 b :: rest
       /\ documents "teammember"
            (snd (create_team_member oid3 alice2
                    (run [req_create_team_member oid2 bob]
                       (snd (create_team_member oid1 alice init)))))
          = l ++ Stored oid1 b :: rest.
Proof.
  assert (H : create_team_member oid1 alice init
              = (Ok [("id", VStr id1)], snd (create_team_member oid1 alice init)))
    by (vm_compute; reflexivity).
  split; [exact H|]. split; [reflexivity|].
  exact (C3_duplicate_username oid1 alice init _ _
           [req_create_team_member oid2 bob] oid3 alice2 H eq_refl).
Defined.
